(** * Position and return reconstruction of the HK stock analysis scripts

    A shallow embedding of the transaction loaders ([load_and_process_portfolio]
    of [hk_stock_analysis_docker.py] and [hk_stock_analysis_server.py],
    [load_portfolio_simple] of [hk_stock_bulletproof.py]), of the
    reconstruction engine ([calculate_performance_from_entries] of
    [hk_stock_analysis_docker.py]), of the forward fill of the price sheet and
    of the ranking in the summary of [main].

    Modelling conventions.
    - Numbers come in two models.  What depends only on the structure of the
      code (which rows and records are kept, which dates a trajectory has,
      which divisions are guarded, which exception leaves the engine) is
      stated over exact rationals ([Q]), where the Python comparison [a > b]
      is [Qltb b a] and numeric equality is [==].  What depends on the
      arithmetic itself (the values left by the replay, the cap, the ranking)
      is stated in [Module Binary64] over IEEE 754 binary64, with rounding,
      NaN and the infinities.
    - Dates (pandas timestamps) are day numbers in [Z].
    - Python exceptions are values of [exn]; code that can raise lives in the
      error monad [result].  Every division of the source goes through
      [pydiv], which raises [ZeroDivisionError] on a zero divisor and records
      the place of the division.
    - A Python [dict] is an association list in insertion order, because the
      engine iterates over [stock_transactions.items()].
    - [DataFrame.sort_values('Date')] is written as an insertion sort by
      date.  The default sort of pandas is not stable, so rows of one date
      can come out in another order; what is proved about the order of the
      replay is proved for every function that sorts by date, on rows with
      distinct dates. *)

From Stdlib Require Import QArith Qfield Lqa ZArith List Bool String Ascii.
From Stdlib Require Import Qabs Sorted Permutation Lia Floats.
Import ListNotations.
Open Scope Q_scope.

(** ** Numbers *)

Definition Qltb (a b : Q) : bool := negb (Qle_bool b a).

(** ** Exceptions and the error monad *)

(** The places where the engine divides. *)
Inductive div_site : Set :=
| SiteCostPerUnit      (* cost_per_unit = cost / units, inside a Sell *)
| SiteCurrentAvgCost   (* current_avg_cost = temp_cost / temp_units *)
| SiteCurrentReturn    (* (market_price - current_avg_cost) / current_avg_cost *)
| SiteWeightedAvgCost  (* weighted_avg_cost = running_cost / running_units *)
| SiteCurrentPctChange (* (current_price - weighted_avg_cost) / weighted_avg_cost *).

Inductive exn : Set :=
| ZeroDivisionError (site : div_site)
| UnboundLocalError (name : string).

Inductive result (A : Type) : Type :=
| Ok (a : A)
| Raise (e : exn).
Arguments Ok {A} a.
Arguments Raise {A} e.

Definition bind {A B} (m : result A) (k : A -> result B) : result B :=
  match m with
  | Ok a => k a
  | Raise e => Raise e
  end.

Notation "x <- m ;; k" := (bind m (fun x => k))
  (at level 61, m at next level, right associativity).
Notation "' p <- m ;; k" := (bind m (fun x => let p := x in k))
  (at level 61, p pattern, m at next level, right associativity).

(** Python's [a / b] on floats. *)
Definition pydiv (site : div_site) (a b : Q) : result Q :=
  if Qeq_bool b 0 then Raise (ZeroDivisionError site) else Ok (a / b).

(** ** Transactions *)

Definition Timestamp := Z.

(** One entry of [all_transactions] (a row of the per-stock frame). *)
Record Transaction : Set := mkTransaction {
  Date : Timestamp;
  TxType : string;
  Transacted_Units : Q;
  Transacted_Price : Q
}.

Definition is_buy (t : Transaction) : bool := String.eqb (TxType t) "Buy".
Definition is_sell (t : Transaction) : bool := String.eqb (TxType t) "Sell".

(** [sort_values('Date')]: stable insertion sort on the date. *)
Fixpoint insert_by_date (t : Transaction) (l : list Transaction) : list Transaction :=
  match l with
  | [] => [t]
  | u :: r => if (Date t <=? Date u)%Z then t :: u :: r else u :: insert_by_date t r
  end.

Fixpoint sort_values (l : list Transaction) : list Transaction :=
  match l with
  | [] => []
  | t :: r => insert_by_date t (sort_values r)
  end.

(** ** The replay of a position

    The body of the [for _, transaction in ... .iterrows()] loops.  The source
    has the loop twice, once over [temp_cost]/[temp_units] and once over
    [running_cost]/[running_units], with the same body. *)

Definition position := (Q * Q)%type.   (* (cost, units) *)

Definition apply_transaction (st : position) (t : Transaction) : result position :=
  let '(cost, units) := st in
  if is_buy t then
    let purchase_cost := Transacted_Units t * Transacted_Price t in
    Ok (cost + purchase_cost, units + Transacted_Units t)
  else if is_sell t then
    if Qltb 0 units then
      cost_per_unit <- pydiv SiteCostPerUnit cost units ;;
      let sell_cost := cost_per_unit * Transacted_Units t in
      Ok (cost - sell_cost, units - Transacted_Units t)
    else Ok (cost, units)
  else Ok (cost, units).

Fixpoint replay (txs : list Transaction) (st : position) : result position :=
  match txs with
  | [] => Ok st
  | t :: r => st' <- apply_transaction st t ;; replay r st'
  end.

Definition initial_position : position := (0, 0).

(** ** Dictionaries in insertion order *)

Definition dict (V : Type) := list (string * V).

Fixpoint dict_get {V} (k : string) (d : dict V) : option V :=
  match d with
  | [] => None
  | (k', v) :: r => if String.eqb k k' then Some v else dict_get k r
  end.

(** [d[k] = v]: an existing key keeps its place, a new key goes last. *)
Fixpoint dict_set {V} (k : string) (v : V) (d : dict V) : dict V :=
  match d with
  | [] => [(k, v)]
  | (k', v') :: r =>
      if String.eqb k k' then (k, v) :: r else (k', v') :: dict_set k v r
  end.

Definition dict_keys {V} (d : dict V) : list string := map fst d.

(** ** The engine: [calculate_performance_from_entries] *)

(** A price column of [price_data]: the index with the cell of each row,
    [None] for NaN. *)
Definition column := list (Timestamp * option Q).
Definition series := list (Timestamp * Q).

Fixpoint dropna (c : column) : series :=
  match c with
  | [] => []
  | (d, Some p) :: r => (d, p) :: dropna r
  | (_, None) :: r => dropna r
  end.

(** What the loader hands over for one stock. *)
Record StockInfo : Set := mkStockInfo {
  buy_transactions : list Transaction;
  sell_transactions : list Transaction;
  all_transactions : list Transaction;
  current_units : Q;
  total_cost : Q
}.

(** An entry of [performance_data]. *)
Record PerformanceRecord : Set := mkPerformanceRecord {
  entry_price : Q;            (* weighted_avg_cost *)
  current_price : Q;
  pct_change : Q;             (* current_pct_change *)
  units : Q;                  (* running_units *)
  entry_date : Timestamp;     (* first_entry_date *)
  historical_pct : series;    (* pct_changes, with its index (dates) *)
  unrealized_pnl : Q
}.

(** [transactions_up_to_date]: the rows dated on or before [price_date],
    sorted by date. *)
Definition transactions_up_to_date (all_tx : list Transaction) (price_date : Timestamp)
  : list Transaction :=
  sort_values (filter (fun t => (Date t <=? price_date)%Z) all_tx).

(** The cap applied to [current_return]. *)
Definition cap_return (current_return : Q) : Q :=
  if Qltb 1000 current_return then 1000
  else if Qltb current_return (-100) then -100
  else current_return.

(** One iteration of [for price_date, market_price in entry_prices.items()];
    [performance_series] carries the dates of [dates_series] with it. *)
Definition price_date_step (all_tx : list Transaction) (performance_series : series)
  (point : Timestamp * Q) : result series :=
  let '(price_date, market_price) := point in
  '(temp_cost, temp_units) <-
     replay (transactions_up_to_date all_tx price_date) initial_position ;;
  if Qltb 0 temp_units then
    current_avg_cost <- pydiv SiteCurrentAvgCost temp_cost temp_units ;;
    ratio <- pydiv SiteCurrentReturn (market_price - current_avg_cost) current_avg_cost ;;
    let current_return := ratio * 100 in
    Ok (performance_series ++ [(price_date, cap_return current_return)])
  else if (0 <? List.length performance_series)%nat then
    Ok (performance_series ++ [(price_date, 0)])
  else Ok performance_series.

Fixpoint price_date_loop (all_tx : list Transaction) (performance_series : series)
  (entry_prices : series) : result series :=
  match entry_prices with
  | [] => Ok performance_series
  | point :: r =>
      s <- price_date_step all_tx performance_series point ;;
      price_date_loop all_tx s r
  end.

(** [pct_changes.iloc[0] = 0.0] *)
Definition set_first_zero (s : series) : series :=
  match s with
  | [] => []
  | (d, _) :: r => (d, 0) :: r
  end.

(** [stock_prices.iloc[-1]] *)
Definition iloc_last (s : series) : option Q :=
  match rev s with
  | [] => None
  | (_, p) :: _ => Some p
  end.

(** The state that survives from one iteration of the loop over the stocks
    to the next: the local variable [pct_changes] ([None] while it is
    unbound) and the dictionary being built. *)
Record loop_state : Type := mkLoopState {
  pct_changes : option series;
  performance_data : dict PerformanceRecord
}.

Definition read_pct_changes (v : option series) : result series :=
  match v with
  | Some s => Ok s
  | None => Raise (UnboundLocalError "pct_changes")
  end.

(** [stock_prices[stock_prices.index >= first_entry_date]] *)
Definition entry_prices_of (first_entry_date : Timestamp) (stock_prices : series) : series :=
  filter (fun p : Timestamp * Q => (first_entry_date <=? fst p)%Z) stock_prices.

(** The body of [for stock_code, transaction_info in stock_transactions.items()]. *)
Definition process_stock (price_data : dict column) (st : loop_state)
  (item : string * StockInfo) : result loop_state :=
  let '(stock_code, transaction_info) := item in
  match dict_get stock_code price_data with
  | None => Ok st
  | Some col =>
    let stock_prices := dropna col in
    let all_tx := all_transactions transaction_info in
    if (0 <? List.length stock_prices)%nat && (0 <? List.length all_tx)%nat then
      match filter is_buy all_tx with
      | [] => Ok st
      | first_buy :: _ =>
        let first_entry_date := Date first_buy in
        let entry_prices := entry_prices_of first_entry_date stock_prices in
        if (0 <? List.length entry_prices)%nat then
          performance_series <- price_date_loop all_tx [] entry_prices ;;
          let pct_changes' :=
            if (0 <? List.length performance_series)%nat
            then Some (set_first_zero performance_series)
            else pct_changes st in
          '(running_cost, running_units) <-
             replay (sort_values all_tx) initial_position ;;
          weighted_avg_cost <-
            (if Qltb 0 running_units
             then pydiv SiteWeightedAvgCost running_cost running_units
             else Ok 0) ;;
          match iloc_last stock_prices with
          | None => Ok st   (* unreachable: [len(stock_prices) > 0] *)
          | Some cur_price =>
            current_pct_change <-
              (if Qltb 0 weighted_avg_cost
               then ratio <- pydiv SiteCurrentPctChange
                               (cur_price - weighted_avg_cost) weighted_avg_cost ;;
                    Ok (ratio * 100)
               else Ok 0) ;;
            historical <- read_pct_changes pct_changes' ;;
            Ok {| pct_changes := pct_changes';
                  performance_data :=
                    dict_set stock_code
                      {| entry_price := weighted_avg_cost;
                         current_price := cur_price;
                         pct_change := current_pct_change;
                         units := running_units;
                         entry_date := first_entry_date;
                         historical_pct := historical;
                         unrealized_pnl :=
                           (cur_price - weighted_avg_cost) * running_units |}
                      (performance_data st) |}
          end
        else Ok st
      end
    else Ok st
  end.

Fixpoint stocks_loop (price_data : dict column) (st : loop_state)
  (items : dict StockInfo) : result loop_state :=
  match items with
  | [] => Ok st
  | item :: r => st' <- process_stock price_data st item ;; stocks_loop price_data st' r
  end.

Definition calculate_performance_from_entries (stock_transactions : dict StockInfo)
  (price_data : dict column) : result (dict PerformanceRecord) :=
  st <- stocks_loop price_data
          {| pct_changes := None; performance_data := [] |} stock_transactions ;;
  Ok (performance_data st).

(** ** The loader: [load_and_process_portfolio] *)

(** A row of the CSV file after the cell-level cleaning: [csv_Date] is the
    result of [parse_date] ([None] when no format matches), [csv_Stock] is
    [str(row['Stock']).strip()], and the two numbers are the results of
    [clean_currency_value].  [csv_Category] is [None] for a missing cell. *)
Record CsvRow : Set := mkCsvRow {
  csv_Date : option Timestamp;
  csv_Category : option string;
  csv_Stock : string;
  csv_Type : string;
  csv_Units : Q;
  csv_Price : Q
}.

(** A row that survived [dropna(subset=['Date'])]. *)
Record Row : Set := mkRow {
  row_Date : Timestamp;
  row_Category : option string;
  row_Stock : string;
  row_Type : string;
  row_Units : Q;
  row_Price : Q
}.

Fixpoint dropna_Date (rows : list CsvRow) : list Row :=
  match rows with
  | [] => []
  | r :: rest =>
      match csv_Date r with
      | Some d =>
          mkRow d (csv_Category r) (csv_Stock r) (csv_Type r) (csv_Units r) (csv_Price r)
            :: dropna_Date rest
      | None => dropna_Date rest
      end
  end.

(** [Series.str.contains(pat, na=False)] for a pattern without
    metacharacters: substring search. *)
Fixpoint str_contains (pat s : string) : bool :=
  String.prefix pat s ||
  match s with
  | EmptyString => false
  | String _ r => str_contains pat r
  end.

Definition is_hk_stock (r : Row) : bool :=
  match row_Category r with
  | Some c => str_contains "HK Stock" c
  | None => false
  end.

Definition is_digit (c : ascii) : bool :=
  let n := nat_of_ascii c in ((48 <=? n) && (n <=? 57))%nat.

(** [str.isdigit()] on an ASCII string. *)
Definition isdigit (s : string) : bool :=
  match s with
  | EmptyString => false
  | _ => forallb is_digit (list_ascii_of_string s)
  end.

(** [len(stock_code) == 4 and stock_code.isdigit()].  Codes are taken as
    ASCII strings; Python counts code points, and its [isdigit] also accepts
    the digits of other scripts. *)
Definition valid_stock_code (stock_code : string) : bool :=
  (String.length stock_code =? 4)%nat && isdigit stock_code.

Definition new_stock_info : StockInfo :=
  {| buy_transactions := []; sell_transactions := []; all_transactions := [];
     current_units := 0; total_cost := 0 |}.

Definition stock_entry (stock_code : string) (d : dict StockInfo) : StockInfo :=
  match dict_get stock_code d with
  | Some info => info
  | None => new_stock_info
  end.

Module DockerLoader.

(** The body of [for _, row in hk_stocks.iterrows()]. *)
Definition process_row (stock_transactions : dict StockInfo) (row : Row)
  : dict StockInfo :=
  let stock_code := row_Stock row in
  if valid_stock_code stock_code then
    let transaction_type := row_Type row in
    let units := row_Units row in
    let price := row_Price row in
    let info := stock_entry stock_code stock_transactions in
    let transaction_data := mkTransaction (row_Date row) transaction_type units price in
    let info1 :=
      {| buy_transactions := buy_transactions info;
         sell_transactions := sell_transactions info;
         all_transactions := all_transactions info ++ [transaction_data];
         current_units := current_units info;
         total_cost := total_cost info |} in
    let info2 :=
      if String.eqb transaction_type "Buy" && Qltb 0 units then
        {| buy_transactions := buy_transactions info1 ++ [transaction_data];
           sell_transactions := sell_transactions info1;
           all_transactions := all_transactions info1;
           current_units := current_units info1 + units;
           total_cost := total_cost info1 + units * price |}
      else if String.eqb transaction_type "Sell" && Qltb 0 units then
        (* current_units and total_cost are left alone here *)
        {| buy_transactions := buy_transactions info1;
           sell_transactions := sell_transactions info1 ++ [transaction_data];
           all_transactions := all_transactions info1;
           current_units := current_units info1;
           total_cost := total_cost info1 |}
      else info1 in
    dict_set stock_code info2 stock_transactions
  else stock_transactions.

Definition has_current_units (kv : string * StockInfo) : bool :=
  Qltb 0 (current_units (snd kv)).

Definition load_and_process_portfolio (csv : list CsvRow) : dict StockInfo :=
  let df := dropna_Date csv in
  let hk_stocks := filter is_hk_stock df in
  let stock_transactions := fold_left process_row hk_stocks [] in
  filter has_current_units stock_transactions.

End DockerLoader.

Module ServerLoader.

(** [transaction_data] of the server variant. *)
Record ServerTransaction : Set := mkServerTransaction {
  sDate : Timestamp;
  sType : string;
  sUnits : Q;
  sPrice : Q;
  sValue : Q
}.

Record ServerStockInfo : Set := mkServerStockInfo {
  s_buy_transactions : list ServerTransaction;
  s_sell_transactions : list ServerTransaction;
  s_all_transactions : list ServerTransaction;
  s_current_units : Q;
  s_total_cost : Q
}.

Definition new_stock_info : ServerStockInfo :=
  {| s_buy_transactions := []; s_sell_transactions := []; s_all_transactions := [];
     s_current_units := 0; s_total_cost := 0 |}.

Definition stock_entry (stock_code : string) (d : dict ServerStockInfo)
  : ServerStockInfo :=
  match dict_get stock_code d with
  | Some info => info
  | None => new_stock_info
  end.

Definition process_row (stock_transactions : dict ServerStockInfo) (row : Row)
  : dict ServerStockInfo :=
  let stock_code := row_Stock row in
  if valid_stock_code stock_code then
    let transaction_type := row_Type row in
    let units := row_Units row in
    let price := row_Price row in
    let info := stock_entry stock_code stock_transactions in
    let transaction_data :=
      mkServerTransaction (row_Date row) transaction_type units price (units * price) in
    let info1 :=
      {| s_buy_transactions := s_buy_transactions info;
         s_sell_transactions := s_sell_transactions info;
         s_all_transactions := s_all_transactions info ++ [transaction_data];
         s_current_units := s_current_units info;
         s_total_cost := s_total_cost info |} in
    let info2 :=
      if String.eqb transaction_type "Buy" && Qltb 0 units then
        {| s_buy_transactions := s_buy_transactions info1 ++ [transaction_data];
           s_sell_transactions := s_sell_transactions info1;
           s_all_transactions := s_all_transactions info1;
           s_current_units := s_current_units info1 + units;
           s_total_cost := s_total_cost info1 + units * price |}
      else if String.eqb transaction_type "Sell" && Qltb 0 units then
        {| s_buy_transactions := s_buy_transactions info1;
           s_sell_transactions := s_sell_transactions info1 ++ [transaction_data];
           s_all_transactions := s_all_transactions info1;
           s_current_units := s_current_units info1 - units;
           s_total_cost := s_total_cost info1 |}
      else info1 in
    dict_set stock_code info2 stock_transactions
  else stock_transactions.

Definition has_current_units (kv : string * ServerStockInfo) : bool :=
  Qltb 0 (s_current_units (snd kv)).

Definition load_and_process_portfolio (csv : list CsvRow) : dict ServerStockInfo :=
  let df := dropna_Date csv in
  let hk_stocks := filter is_hk_stock df in
  let stock_transactions := fold_left process_row hk_stocks [] in
  filter has_current_units stock_transactions.

End ServerLoader.

(** ** Specification-side notions *)

(** The rows of one instrument that the loader looks at. *)
Definition same_stock (stock_code : string) (r : Row) : bool :=
  String.eqb (row_Stock r) stock_code.

Definition rows_of (stock_code : string) (csv : list CsvRow) : list Row :=
  filter (same_stock stock_code) (filter is_hk_stock (dropna_Date csv)).

Definition Qsum (l : list Q) : Q := fold_right Qplus 0 l.

(** The quantities of the valid transactions of a kind (a quantity that is
    not strictly positive makes the row invalid). *)
Definition quantities (kind : string) (rows : list Row) : list Q :=
  map row_Units
      (filter (fun r => String.eqb (row_Type r) kind && Qltb 0 (row_Units r)) rows).

(** Sum of the buy quantities minus the sum of the sell quantities. *)
Definition net_position (rows : list Row) : Q :=
  Qsum (quantities "Buy" rows) - Qsum (quantities "Sell" rows).

(** Sum of the buy quantities alone. *)
Definition bought_units (rows : list Row) : Q :=
  Qsum (quantities "Buy" rows).

Definition nonneg_position (st : position) : Prop := 0 <= fst st /\ 0 <= snd st.

(** Some Sell asks for more units than are held just before it. *)
Definition oversold (txs : list Transaction) : Prop :=
  exists before t after c u,
    txs = before ++ t :: after /\ is_sell t = true /\
    replay before initial_position = Ok (c, u) /\ u < Transacted_Units t.

Definition mk_buy (d : Timestamp) (q p : Q) : Transaction := mkTransaction d "Buy" q p.
Definition mk_sell (d : Timestamp) (q p : Q) : Transaction := mkTransaction d "Sell" q p.
Arguments mk_buy d%_Z q%_Q p%_Q.
Arguments mk_sell d%_Z q%_Q p%_Q.

(** ** Notions used to state what one iteration of the loop over the stocks does *)

Definition weighted_avg_cost_of (pos : position) : Q :=
  if Qltb 0 (snd pos) then fst pos / snd pos else 0.

Definition current_pct_change_of (cur_price wac : Q) : Q :=
  if Qltb 0 wac then (cur_price - wac) / wac * 100 else 0.

(** What an iteration that stores a record has computed. *)
Inductive stored (price_data : dict column) (st : loop_state) (stock_code : string)
  (info : StockInfo) (st' : loop_state) : Prop :=
| mkStored (st_col : column) (st_first_buy : Transaction)
    (st_other_buys : list Transaction) (st_series : series) (st_pos : position)
    (st_cur : Q) (st_hist : series)
    (st_has_col : dict_get stock_code price_data = Some st_col)
    (st_buys : filter is_buy (all_transactions info) = st_first_buy :: st_other_buys)
    (st_entry_nonempty : entry_prices_of (Date st_first_buy) (dropna st_col) <> [])
    (st_loop : price_date_loop (all_transactions info) []
              (entry_prices_of (Date st_first_buy) (dropna st_col)) = Ok st_series)
    (st_replay : replay (sort_values (all_transactions info)) initial_position = Ok st_pos)
    (st_last : iloc_last (dropna st_col) = Some st_cur)
    (st_var : pct_changes st' =
             (if (0 <? List.length st_series)%nat
              then Some (set_first_zero st_series) else pct_changes st))
    (st_read : pct_changes st' = Some st_hist)
    (st_data : performance_data st' =
              dict_set stock_code
                {| entry_price := weighted_avg_cost_of st_pos;
                   current_price := st_cur;
                   pct_change := current_pct_change_of st_cur (weighted_avg_cost_of st_pos);
                   units := snd st_pos;
                   entry_date := Date st_first_buy;
                   historical_pct := st_hist;
                   unrealized_pnl := (st_cur - weighted_avg_cost_of st_pos) * snd st_pos |}
                (performance_data st)).

(** ** Notions used to state the properties of a trajectory *)

(** The first point of a trajectory is exactly zero. *)
Definition zero_at_entry (s : series) : Prop :=
  exists d rest, s = (d, 0) :: rest.

(** What the loop over the stocks keeps true of its state. *)
Definition good_state (st : loop_state) : Prop :=
  (forall s, pct_changes st = Some s -> zero_at_entry s) /\
  (forall k r, In (k, r) (performance_data st) -> zero_at_entry (historical_pct r)).

(** ** Scenarios *)

Definition stock_of (txs : list Transaction) : StockInfo :=
  {| buy_transactions := filter (fun t => is_buy t && Qltb 0 (Transacted_Units t)) txs;
     sell_transactions := filter (fun t => is_sell t && Qltb 0 (Transacted_Units t)) txs;
     all_transactions := txs;
     current_units :=
       Qsum (map Transacted_Units
               (filter (fun t => is_buy t && Qltb 0 (Transacted_Units t)) txs));
     total_cost :=
       Qsum (map (fun t => Transacted_Units t * Transacted_Price t)
               (filter (fun t => is_buy t && Qltb 0 (Transacted_Units t)) txs)) |}.

Definition prices_of (l : list (Timestamp * Q)) : column :=
  map (fun p => (fst p, Some (snd p))) l.

(** Scenario A: one Buy of 100 @ 10 on day 1, prices 10, 11, 9, 12. *)
Definition scenario_A_stocks : dict StockInfo :=
  [("0388"%string, stock_of [mk_buy 1 100 10])].
Definition scenario_A_prices : dict column :=
  [("0388"%string, prices_of [(1%Z, 10); (2%Z, 11); (3%Z, 9); (4%Z, 12)])].

(** Values of a trajectory in lowest terms. *)
Definition reduced (s : series) : series := map (fun p => (fst p, Qred (snd p))) s.

(** ** Notions used to state what a stored record holds *)

(** The fields of the record of [stock_code], as computed from its
    transactions and its price column. *)
Definition record_of (price_data : dict column) (stock_code : string)
  (info : StockInfo) (r : PerformanceRecord) : Prop :=
  exists col first_buy other_buys pos cur,
    dict_get stock_code price_data = Some col /\
    filter is_buy (all_transactions info) = first_buy :: other_buys /\
    replay (sort_values (all_transactions info)) initial_position = Ok pos /\
    iloc_last (dropna col) = Some cur /\
    entry_price r = weighted_avg_cost_of pos /\
    current_price r = cur /\
    pct_change r = current_pct_change_of cur (weighted_avg_cost_of pos) /\
    units r = snd pos /\
    entry_date r = Date first_buy /\
    unrealized_pnl r = (cur - weighted_avg_cost_of pos) * snd pos.



(** A Buy of 1 unit @ 1 and a price of 100. *)
Definition tenfold_stocks : dict StockInfo :=
  [("0388"%string, stock_of [mk_buy 1 1 1])].
Definition tenfold_prices : dict column :=
  [("0388"%string, prices_of [(1%Z, 100)])].

(** ** Notions used to state what happens when no point is appended *)

(** The stock has a price column, a Buy row and prices on or after the date
    of its first Buy row, but the replay holds no units on any of these
    dates. *)
Definition no_point_appended (price_data : dict column) (stock_code : string)
  (info : StockInfo) : Prop :=
  exists col first_buy other_buys,
    dict_get stock_code price_data = Some col /\
    filter is_buy (all_transactions info) = first_buy :: other_buys /\
    entry_prices_of (Date first_buy) (dropna col) <> [] /\
    forall d p, In (d, p) (entry_prices_of (Date first_buy) (dropna col)) ->
      exists pos,
        replay (transactions_up_to_date (all_transactions info) d) initial_position = Ok pos /\
        snd pos <= 0.

Definition initial_state : loop_state := {| pct_changes := None; performance_data := [] |}.

(** A stock whose first Buy row has no units and whose real Buy comes after
    the last price. *)
Definition late_buy : string * StockInfo :=
  ("0823"%string, stock_of [mk_buy 1 0 10; mk_buy 9 100 10]).
Definition two_columns : dict column :=
  [("0388"%string, prices_of [(1%Z, 10); (2%Z, 11); (3%Z, 9); (4%Z, 12)]);
   ("0823"%string, prices_of [(1%Z, 50); (2%Z, 51)])].

(** ** Notions used to state what the loaders keep *)

(** What a row adds to [current_units] in each variant. *)
Definition docker_delta (row : Row) : Q :=
  if String.eqb (row_Type row) "Buy" && Qltb 0 (row_Units row) then row_Units row
  else 0.


Definition hk_row (d : Timestamp) (stock_code kind : string) (q p : Q) : CsvRow :=
  mkCsvRow (Some d) (Some "Equity - HK Stock"%string) stock_code kind q p.
Arguments hk_row d%_Z stock_code%_string kind%_string q%_Q p%_Q.

(** Sells that offset the buys. *)
Definition sold_out_csv : list CsvRow :=
  [hk_row 1 "0388" "Buy" 100 10; hk_row 3 "0388" "Sell" 100 12].

(** Two buys, the later one first in the file. *)
Definition unordered_csv : list CsvRow :=
  [hk_row 5 "0388" "Buy" 100 10; hk_row 1 "0388" "Buy" 100 10].

Definition six_days : dict column :=
  [("0388"%string,
    prices_of [(1%Z, 10); (2%Z, 11); (3%Z, 9); (4%Z, 12); (5%Z, 12); (6%Z, 15)])].

(** The earliest date among the Buy rows. *)
Definition earliest_buy_date (txs : list Transaction) : option Timestamp :=
  match map Date (filter is_buy txs) with
  | [] => None
  | d :: ds => Some (fold_left Z.min ds d)
  end.

(** The file that gives [late_buy]: the quantity of the first row did not
    convert and was cleaned to 0. *)
Definition late_buy_csv : list CsvRow :=
  [hk_row 1 "0823" "Buy" 0 10; hk_row 9 "0823" "Buy" 100 10].

(** ** Notions used for the further properties of the engine *)

(** An iteration over this stock leaves the loop state as it is. *)
Definition skipped (price_data : dict column) (stock_code : string) (info : StockInfo)
  : Prop :=
  dict_get stock_code price_data = None \/
  filter is_buy (all_transactions info) = [] \/
  exists col first_buy other_buys,
    dict_get stock_code price_data = Some col /\
    filter is_buy (all_transactions info) = first_buy :: other_buys /\
    entry_prices_of (Date first_buy) (dropna col) = [].

(** The record [r] of [stock_code] was computed from [info] and the column
    [col]; [ps] is the [performance_series] of that iteration. *)
Definition computed_from (price_data : dict column) (stock_code : string)
  (info : StockInfo) (col : column) (ps : series) (r : PerformanceRecord) : Prop :=
  record_of price_data stock_code info r /\
  dict_get stock_code price_data = Some col /\
  entry_prices_of (entry_date r) (dropna col) <> [] /\
  price_date_loop (all_transactions info) [] (entry_prices_of (entry_date r) (dropna col))
    = Ok ps /\
  (ps <> [] -> historical_pct r = set_first_zero ps).

Definition dates_of (s : series) : list Timestamp := map fst s.

(** A stock without a price column. *)
Definition unlisted : string * StockInfo :=
  ("9999"%string, stock_of [mk_buy 1 10 5]).

(** The replay holds no units on the date [d]. *)
Definition no_units_on (all_tx : list Transaction) (d : Timestamp) : Prop :=
  exists pos,
    replay (transactions_up_to_date all_tx d) initial_position = Ok pos /\ snd pos <= 0.

(** The replay holds units on the date [d]. *)
Definition units_on (all_tx : list Transaction) (d : Timestamp) : Prop :=
  exists pos,
    replay (transactions_up_to_date all_tx d) initial_position = Ok pos /\ 0 < snd pos.

(** ** Notions used to state what the loaders hand over *)

(** [transaction_data] of a row (docker variant). *)
Definition to_transaction (row : Row) : Transaction :=
  mkTransaction (row_Date row) (row_Type row) (row_Units row) (row_Price row).

(** A row of the given kind with a strictly positive quantity. *)
Definition valid_row (kind : string) (r : Row) : bool :=
  String.eqb (row_Type r) kind && Qltb 0 (row_Units r).

(** What the valid Buy rows cost. *)
Definition bought_cost (rows : list Row) : Q :=
  Qsum (map (fun r => row_Units r * row_Price r) (filter (valid_row "Buy") rows)).

Definition docker_cost_delta (row : Row) : Q :=
  if valid_row "Buy" row then row_Units row * row_Price row else 0.

(** A file with a zero-quantity Buy, a real Buy and a Sell of one stock, and
    a row of another stock in between. *)
Definition mixed_csv : list CsvRow :=
  [hk_row 1 "0388" "Buy" 0 10; hk_row 2 "0823" "Buy" 5 50;
   hk_row 3 "0388" "Buy" 100 10; hk_row 4 "0388" "Sell" 40 12].

(** ** The loader of the bulletproof variant: [load_portfolio_simple] *)

Module Bulletproof.

(** An entry of [stock_data]. *)
Record SimpleInfo : Set := mkSimpleInfo {
  b_units : Q;
  b_total_cost : Q;
  b_entry_date : option Timestamp
}.

Definition new_stock_data : SimpleInfo :=
  {| b_units := 0; b_total_cost := 0; b_entry_date := None |}.

Definition stock_entry (stock_code : string) (d : dict SimpleInfo) : SimpleInfo :=
  match dict_get stock_code d with
  | Some info => info
  | None => new_stock_data
  end.

(** The body of [for _, row in hk_stocks.iterrows()]. *)
Definition process_row (stock_data : dict SimpleInfo) (row : Row) : dict SimpleInfo :=
  let stock_code := row_Stock row in
  if valid_stock_code stock_code then
    let info := stock_entry stock_code stock_data in
    let units := row_Units row in
    let price := row_Price row in
    let info' :=
      if String.eqb (row_Type row) "Buy" && Qltb 0 units then
        {| b_units := b_units info + units;
           b_total_cost := b_total_cost info + units * price;
           b_entry_date :=
             match b_entry_date info with
             | None => Some (row_Date row)
             | Some d => Some d
             end |}
      else if String.eqb (row_Type row) "Sell" && Qltb 0 units then
        {| b_units := b_units info - units;
           b_total_cost := b_total_cost info;
           b_entry_date := b_entry_date info |}
      else info in
    dict_set stock_code info' stock_data
  else stock_data.

Definition has_units (kv : string * SimpleInfo) : bool := Qltb 0 (b_units (snd kv)).

(** [load_portfolio_simple] on a file whose category column holds at least
    one string.  On a column without any string the [.str] accessor raises
    [AttributeError] before a row is read; such a file is outside the
    model. *)
Definition load_portfolio_simple (csv : list CsvRow) : dict SimpleInfo :=
  let df := dropna_Date csv in
  let hk_stocks := filter is_hk_stock df in
  let stock_data := fold_left process_row hk_stocks [] in
  filter has_units stock_data.

End Bulletproof.

(** ** The price sheet: [prices.ffill()] *)

(** A cell after [pd.to_numeric(..., errors='coerce')] is a price or NaN
    ([None]).  [ffill_from last] fills with the last price seen. *)
Fixpoint ffill_from (last : option Q) (prices : list (option Q)) : list (option Q) :=
  match prices with
  | [] => []
  | Some v :: r => Some v :: ffill_from (Some v) r
  | None :: r => last :: ffill_from last r
  end.

Definition ffill (prices : list (option Q)) : list (option Q) := ffill_from None prices.

(** A column of [result_df]: the filled prices against the dates, without
    the rows whose date did not parse ([dropna(subset=['Date'])]). *)
Fixpoint dated_rows (dates : list (option Timestamp)) (prices : list (option Q)) : column :=
  match dates, prices with
  | Some d :: ds, p :: ps => (d, p) :: dated_rows ds ps
  | None :: ds, _ :: ps => dated_rows ds ps
  | _, _ => []
  end.

Definition sheet_column (dates : list (option Timestamp)) (prices : list (option Q))
  : column :=
  dated_rows dates (ffill prices).

Definition gappy_prices : list (option Q) := [None; Some 5; None; None; Some 7; None].

Definition priced (cell : Timestamp * option Q) : Prop := snd cell <> None.
Definition unpriced (cell : Timestamp * option Q) : Prop := snd cell = None.

(** A sheet whose second row has a price but a date that did not parse. *)
Definition undated_price_dates : list (option Timestamp) := [Some 1%Z; None; Some 3%Z].
Definition undated_price_cells : list (option Q) := [None; Some 5; None].

(** * The engine over binary64

    The same code with Python's [float] as it is: IEEE 754 binary64 with
    round-to-nearest-even, NaN and the infinities (Rocq's primitive floats).
    Comparisons with NaN are false, arithmetic never raises, and [a / b]
    raises [ZeroDivisionError] when [b] is a zero.  A missing price is a NaN
    cell. *)

#[local] Set Warnings "-inexact-float".

Module Binary64.

(** Python's [a / b] on floats. *)
Definition pydiv (site : div_site) (a b : float) : result float :=
  if PrimFloat.eqb b 0%float then Raise (ZeroDivisionError site)
  else Ok (PrimFloat.div a b).

(** One entry of [all_transactions]. *)
Record Transaction : Set := mkTransaction {
  Date : Timestamp;
  TxType : string;
  Transacted_Units : float;
  Transacted_Price : float
}.

Definition is_buy (t : Transaction) : bool := String.eqb (TxType t) "Buy".
Definition is_sell (t : Transaction) : bool := String.eqb (TxType t) "Sell".

Definition position := (float * float)%type.   (* (cost, units) *)

(** The body of the [for _, transaction in ... .iterrows()] loops. *)
Definition apply_transaction (st : position) (t : Transaction) : result position :=
  let '(cost, units) := st in
  if is_buy t then
    let purchase_cost := PrimFloat.mul (Transacted_Units t) (Transacted_Price t) in
    Ok (PrimFloat.add cost purchase_cost, PrimFloat.add units (Transacted_Units t))
  else if is_sell t then
    if PrimFloat.ltb 0%float units then
      cost_per_unit <- pydiv SiteCostPerUnit cost units ;;
      let sell_cost := PrimFloat.mul cost_per_unit (Transacted_Units t) in
      Ok (PrimFloat.sub cost sell_cost, PrimFloat.sub units (Transacted_Units t))
    else Ok (cost, units)
  else Ok (cost, units).

Fixpoint replay (txs : list Transaction) (st : position) : result position :=
  match txs with
  | [] => Ok st
  | t :: r => st' <- apply_transaction st t ;; replay r st'
  end.

Definition initial_position : position := (0%float, 0%float).

Definition mk_buy (d : Timestamp) (q p : float) : Transaction := mkTransaction d "Buy" q p.
Definition mk_sell (d : Timestamp) (q p : float) : Transaction := mkTransaction d "Sell" q p.
Arguments mk_buy d%_Z q%_float p%_float.
Arguments mk_sell d%_Z q%_float p%_float.



(** [sort_values('Date')] *)
Fixpoint insert_by_date (t : Transaction) (l : list Transaction) : list Transaction :=
  match l with
  | [] => [t]
  | u :: r => if (Date t <=? Date u)%Z then t :: u :: r else u :: insert_by_date t r
  end.

Fixpoint sort_values (l : list Transaction) : list Transaction :=
  match l with
  | [] => []
  | t :: r => insert_by_date t (sort_values r)
  end.

(** Transactions in the order of their dates. *)
Definition by_date : list Transaction -> Prop :=
  StronglySorted (fun t u => (Date t <= Date u)%Z).

Definition on_or_before (d : Timestamp) (t : Transaction) : bool := (Date t <=? d)%Z.

(** What [sort_values('Date')] gives whatever the sorting algorithm is: the
    same rows, in the order of their dates.  The order of rows of one date
    is left open (the default quicksort is not stable). *)
Definition sorts_by_date (sort : list Transaction -> list Transaction) : Prop :=
  forall l, Permutation (sort l) l /\ by_date (sort l).

(** Three transactions out of order, each on a day of its own. *)
Definition three_dates : list Transaction :=
  [mk_buy 5 100 10; mk_sell 9 40 12; mk_buy 2 50 8].

(** A price column: a NaN cell is a missing price. *)
Definition series := list (Timestamp * float).

Definition dropna (c : series) : series :=
  filter (fun p => negb (PrimFloat.is_nan (snd p))) c.

Record StockInfo : Set := mkStockInfo {
  buy_transactions : list Transaction;
  sell_transactions : list Transaction;
  all_transactions : list Transaction;
  current_units : float;
  total_cost : float
}.

Record PerformanceRecord : Set := mkPerformanceRecord {
  entry_price : float;
  current_price : float;
  pct_change : float;
  units : float;
  entry_date : Timestamp;
  historical_pct : series;
  unrealized_pnl : float
}.

Definition transactions_up_to_date (all_tx : list Transaction) (price_date : Timestamp)
  : list Transaction :=
  sort_values (filter (fun t => (Date t <=? price_date)%Z) all_tx).

(** The cap applied to [current_return]. *)
Definition cap_return (current_return : float) : float :=
  if PrimFloat.ltb 1000%float current_return then 1000%float
  else if PrimFloat.ltb current_return (-100)%float then (-100)%float
  else current_return.

Definition price_date_step (all_tx : list Transaction) (performance_series : series)
  (point : Timestamp * float) : result series :=
  let '(price_date, market_price) := point in
  '(temp_cost, temp_units) <-
     replay (transactions_up_to_date all_tx price_date) initial_position ;;
  if PrimFloat.ltb 0%float temp_units then
    current_avg_cost <- pydiv SiteCurrentAvgCost temp_cost temp_units ;;
    ratio <- pydiv SiteCurrentReturn
               (PrimFloat.sub market_price current_avg_cost) current_avg_cost ;;
    let current_return := PrimFloat.mul ratio 100%float in
    Ok (performance_series ++ [(price_date, cap_return current_return)])
  else if (0 <? List.length performance_series)%nat then
    Ok (performance_series ++ [(price_date, 0%float)])
  else Ok performance_series.

Fixpoint price_date_loop (all_tx : list Transaction) (performance_series : series)
  (entry_prices : series) : result series :=
  match entry_prices with
  | [] => Ok performance_series
  | point :: r =>
      s <- price_date_step all_tx performance_series point ;;
      price_date_loop all_tx s r
  end.

Definition set_first_zero (s : series) : series :=
  match s with
  | [] => []
  | (d, _) :: r => (d, 0%float) :: r
  end.

Definition iloc_last (s : series) : option float :=
  match rev s with
  | [] => None
  | (_, p) :: _ => Some p
  end.

Record loop_state : Type := mkLoopState {
  pct_changes : option series;
  performance_data : dict PerformanceRecord
}.

Definition read_pct_changes (v : option series) : result series :=
  match v with
  | Some s => Ok s
  | None => Raise (UnboundLocalError "pct_changes")
  end.

Definition entry_prices_of (first_entry_date : Timestamp) (stock_prices : series) : series :=
  filter (fun p : Timestamp * float => (first_entry_date <=? fst p)%Z) stock_prices.

(** The body of [for stock_code, transaction_info in stock_transactions.items()]. *)
Definition process_stock (price_data : dict series) (st : loop_state)
  (item : string * StockInfo) : result loop_state :=
  let '(stock_code, transaction_info) := item in
  match dict_get stock_code price_data with
  | None => Ok st
  | Some col =>
    let stock_prices := dropna col in
    let all_tx := all_transactions transaction_info in
    if (0 <? List.length stock_prices)%nat && (0 <? List.length all_tx)%nat then
      match filter is_buy all_tx with
      | [] => Ok st
      | first_buy :: _ =>
        let first_entry_date := Date first_buy in
        let entry_prices := entry_prices_of first_entry_date stock_prices in
        if (0 <? List.length entry_prices)%nat then
          performance_series <- price_date_loop all_tx [] entry_prices ;;
          let pct_changes' :=
            if (0 <? List.length performance_series)%nat
            then Some (set_first_zero performance_series)
            else pct_changes st in
          '(running_cost, running_units) <-
             replay (sort_values all_tx) initial_position ;;
          weighted_avg_cost <-
            (if PrimFloat.ltb 0%float running_units
             then pydiv SiteWeightedAvgCost running_cost running_units
             else Ok 0%float) ;;
          match iloc_last stock_prices with
          | None => Ok st
          | Some cur_price =>
            current_pct_change <-
              (if PrimFloat.ltb 0%float weighted_avg_cost
               then ratio <- pydiv SiteCurrentPctChange
                               (PrimFloat.sub cur_price weighted_avg_cost)
                               weighted_avg_cost ;;
                    Ok (PrimFloat.mul ratio 100%float)
               else Ok 0%float) ;;
            historical <- read_pct_changes pct_changes' ;;
            Ok {| pct_changes := pct_changes';
                  performance_data :=
                    dict_set stock_code
                      {| entry_price := weighted_avg_cost;
                         current_price := cur_price;
                         pct_change := current_pct_change;
                         units := running_units;
                         entry_date := first_entry_date;
                         historical_pct := historical;
                         unrealized_pnl :=
                           PrimFloat.mul (PrimFloat.sub cur_price weighted_avg_cost)
                                         running_units |}
                      (performance_data st) |}
          end
        else Ok st
      end
    else Ok st
  end.

Fixpoint stocks_loop (price_data : dict series) (st : loop_state)
  (items : dict StockInfo) : result loop_state :=
  match items with
  | [] => Ok st
  | item :: r => st' <- process_stock price_data st item ;; stocks_loop price_data st' r
  end.

Definition calculate_performance_from_entries (stock_transactions : dict StockInfo)
  (price_data : dict series) : result (dict PerformanceRecord) :=
  st <- stocks_loop price_data
          {| pct_changes := None; performance_data := [] |} stock_transactions ;;
  Ok (performance_data st).

(** What the loader hands over for a list of rows of one stock. *)
Definition stock_of (txs : list Transaction) : StockInfo :=
  let buys := filter (fun t => is_buy t && PrimFloat.ltb 0%float (Transacted_Units t)) txs in
  {| buy_transactions := buys;
     sell_transactions :=
       filter (fun t => is_sell t && PrimFloat.ltb 0%float (Transacted_Units t)) txs;
     all_transactions := txs;
     current_units :=
       fold_left (fun acc t => PrimFloat.add acc (Transacted_Units t)) buys 0%float;
     total_cost :=
       fold_left (fun acc t =>
                    PrimFloat.add acc
                      (PrimFloat.mul (Transacted_Units t) (Transacted_Price t)))
                 buys 0%float |}.

(** A point of a trajectory lies within the cap. *)
Definition in_bounds (v : float) : bool :=
  PrimFloat.leb (-100)%float v && PrimFloat.leb v 1000%float.

(** A point of a trajectory is a NaN or lies within the cap. *)
Definition capped (p : Timestamp * float) : Prop :=
  PrimFloat.is_nan (snd p) = true \/ in_bounds (snd p) = true.

(** What the loop over the stocks keeps true of its state. *)
Definition capped_state (st : loop_state) : Prop :=
  (forall s, pct_changes st = Some s -> Forall capped s) /\
  (forall k r, In (k, r) (performance_data st) -> Forall capped (historical_pct r)).

(** One Buy of 1e200 units @ 1e200: the cost overflows. *)
Definition overflow_stocks : dict StockInfo :=
  [("0388"%string, stock_of [mk_buy 1 1e200%float 1e200%float])].
Definition overflow_prices : dict series :=
  [("0388"%string, [(1%Z, 1%float); (2%Z, 2%float)])].

(** ** The summary of [main] *)

(** [sorted(items, key=..., reverse=True)]: the sort compares keys with [<]
    only and is stable, also with [reverse=True], so on keys without NaN the
    result is descending by key with items of equal keys in their original
    order. *)
Fixpoint insert_desc {A} (key : A -> float) (x : A) (l : list A) : list A :=
  match l with
  | [] => [x]
  | y :: r => if PrimFloat.ltb (key x) (key y) then y :: insert_desc key x r
              else x :: y :: r
  end.

Fixpoint sorted_reverse {A} (key : A -> float) (l : list A) : list A :=
  match l with
  | [] => []
  | x :: r => insert_desc key x (sorted_reverse key r)
  end.

(** [sorted_performance] of [main] (docker and server variants). *)
Definition sorted_performance (performance_data : dict PerformanceRecord)
  : dict PerformanceRecord :=
  sorted_reverse (fun x => pct_change (snd x)) performance_data.

(** [sorted_performance[0]] and [sorted_performance[-1]], reached only
    behind [if not performance_data: return]. *)
Definition best_and_worst (performance_data : dict PerformanceRecord)
  : option ((string * PerformanceRecord) * (string * PerformanceRecord)) :=
  match performance_data with
  | [] => None
  | _ =>
      match sorted_performance performance_data,
            rev (sorted_performance performance_data) with
      | best :: _, worst :: _ => Some (best, worst)
      | _, _ => None
      end
  end.

(** One entry of [performance_data] of the bulletproof variant. *)
Record SimplePerformance : Set := mkSimplePerformance {
  simple_pct_changes : series;     (* 'dates' and 'pct_changes' *)
  current_pct : float;
  simple_current_price : float;    (* 'current_price' *)
  avg_cost : float
}.

(** [sorted_perf], [winners] and [losers] of the bulletproof variant. *)
Definition sorted_perf (performance_data : dict SimplePerformance)
  : dict SimplePerformance :=
  sorted_reverse (fun x => current_pct (snd x)) performance_data.

Definition winners (sorted_perf : dict SimplePerformance) : dict SimplePerformance :=
  filter (fun x => PrimFloat.leb 0%float (current_pct (snd x))) sorted_perf.

Definition losers (sorted_perf : dict SimplePerformance) : dict SimplePerformance :=
  filter (fun x => PrimFloat.ltb (current_pct (snd x)) 0%float) sorted_perf.

Definition descending {A} (key : A -> float) : list A -> Prop :=
  StronglySorted (fun a b => PrimFloat.leb (key b) (key a) = true).

(** No key is NaN. *)
Definition no_nan {A} (key : A -> float) (l : list A) : Prop :=
  Forall (fun x => PrimFloat.is_nan (key x) = false) l.

(** Three stocks bought on day 1 and priced on days 1 and 2: up 20%, down
    5%, up 10%. *)
Definition three_stocks : dict StockInfo :=
  [("0388"%string, stock_of [mk_buy 1 100 10]);
   ("0700"%string, stock_of [mk_buy 1 10 400]);
   ("0005"%string, stock_of [mk_buy 1 50 60])].
Definition three_prices : dict series :=
  [("0388"%string, [(1%Z, 10%float); (2%Z, 12%float)]);
   ("0700"%string, [(1%Z, 400%float); (2%Z, 380%float)]);
   ("0005"%string, [(1%Z, 60%float); (2%Z, 66%float)])].

(** Four entries of the bulletproof variant, with a [current_pct] of 12.5,
    -3.25, 0 and -20. *)
Definition simple_entry (stock_code : string) (current_pct : float)
  : string * SimplePerformance :=
  (stock_code, mkSimplePerformance [(1%Z, 0%float); (2%Z, current_pct)] current_pct
                                   8%float 8%float).
Definition four_entries : dict SimplePerformance :=
  [simple_entry "0005" 12.5%float; simple_entry "0388" (-3.25)%float;
   simple_entry "0700" 0%float; simple_entry "0823" (-20)%float].

End Binary64.

Arguments Binary64.mk_buy d%_Z q%_float p%_float.
Arguments Binary64.mk_sell d%_Z q%_float p%_float.

(** * Properties *)

(** ** Numbers and division *)

Lemma Qltb_iff a b : Qltb a b = true <-> a < b.
Proof.
  unfold Qltb. rewrite negb_true_iff.
  split; intro H.
  - apply Qnot_le_lt. intro Hle. apply Qle_bool_iff in Hle. congruence.
  - destruct (Qle_bool b a) eqn:E; [|reflexivity].
    apply Qle_bool_iff in E. exfalso. apply (Qlt_not_le _ _ H E).
Qed.

Lemma Qltb_false_iff a b : Qltb a b = false <-> b <= a.
Proof.
  unfold Qltb. rewrite negb_false_iff. apply Qle_bool_iff.
Qed.

#[global] Instance Qltb_comp : Proper (Qeq ==> Qeq ==> eq) Qltb.
Proof. intros a a' Ha b b' Hb. unfold Qltb. now rewrite Ha, Hb. Qed.

Lemma pydiv_nonzero site a b : ~ b == 0 -> pydiv site a b = Ok (a / b).
Proof.
  intro H. unfold pydiv. destruct (Qeq_bool b 0) eqn:E; [|reflexivity].
  apply Qeq_bool_iff in E. contradiction.
Qed.

Lemma pydiv_pos site a b : 0 < b -> pydiv site a b = Ok (a / b).
Proof. intro H. apply pydiv_nonzero. intro E. rewrite E in H. now apply Qlt_irrefl in H. Qed.

(** ** The replay never raises *)

Lemma apply_transaction_total st t : exists st', apply_transaction st t = Ok st'.
Proof.
  destruct st as [cost u]. unfold apply_transaction.
  destruct (is_buy t); [eauto|].
  destruct (is_sell t); [|eauto].
  destruct (Qltb 0 u) eqn:E; [|eauto].
  apply Qltb_iff in E. rewrite (pydiv_pos _ _ _ E). simpl. eauto.
Qed.

Lemma replay_total txs : forall st, exists st', replay txs st = Ok st'.
Proof.
  induction txs as [|t r IH]; intro st; simpl; [eauto|].
  destruct (apply_transaction_total st t) as [st1 H1]. rewrite H1. simpl. apply IH.
Qed.

(** C1 as stated fails: after Buy 100 @ 10, a Sell of 150 leaves -50 units
    and a cost of -500. *)
Lemma oversell_goes_negative :
  ~ (forall txs, oversold txs ->
       forall st, replay txs initial_position = Ok st -> nonneg_position st).
Proof.
  intro H.
  assert (Hov : oversold [mk_buy 1 100 10; mk_sell 3 150 12]).
  { exists [mk_buy 1 100 10], (mk_sell 3 150 12), []. do 2 eexists.
    repeat split; try reflexivity. }
  destruct (H _ Hov _ eq_refl) as [Hc _].
  vm_compute in Hc. apply Hc. reflexivity.
Qed.

(** ** One stock of the loop *)

Lemma length_pos_nonempty {A} (l : list A) : (0 <? List.length l)%nat = true -> l <> [].
Proof. destruct l; [discriminate | congruence]. Qed.

Lemma weighted_avg_cost_ok (rc ru : Q) :
  (if Qltb 0 ru then pydiv SiteWeightedAvgCost rc ru else Ok 0)
  = Ok (weighted_avg_cost_of (rc, ru)).
Proof.
  unfold weighted_avg_cost_of. simpl. destruct (Qltb 0 ru) eqn:E; [|reflexivity].
  apply Qltb_iff in E. now apply pydiv_pos.
Qed.

Lemma current_pct_change_ok (cur wac : Q) :
  (if Qltb 0 wac
   then ratio <- pydiv SiteCurrentPctChange (cur - wac) wac ;; Ok (ratio * 100)
   else Ok 0)
  = Ok (current_pct_change_of cur wac).
Proof.
  unfold current_pct_change_of. destruct (Qltb 0 wac) eqn:E; [|reflexivity].
  apply Qltb_iff in E. now rewrite pydiv_pos.
Qed.

Lemma process_stock_inv price_data st stock_code info st' :
  process_stock price_data st (stock_code, info) = Ok st' ->
  st' = st \/ stored price_data st stock_code info st'.
Proof.
  unfold process_stock.
  destruct (dict_get stock_code price_data) as [col|] eqn:Ecol;
    [|intro H; left; congruence].
  destruct ((0 <? List.length (dropna col))%nat && (0 <? List.length (all_transactions info))%nat);
    [|intro H; left; congruence].
  destruct (filter is_buy (all_transactions info)) as [|first_buy others] eqn:Ebuys;
    [intro H; left; congruence|].
  match goal with
  | |- (if ?b then _ else _) = _ -> _ => destruct b eqn:Elen
  end; [|intro H; left; congruence].
  destruct (price_date_loop (all_transactions info) []
              (entry_prices_of (Date first_buy) (dropna col))) as [ps|e] eqn:Eloop;
    simpl; [|discriminate].
  destruct (replay (sort_values (all_transactions info)) initial_position)
    as [[rc ru]|e] eqn:Erep; simpl; [|discriminate].
  rewrite weighted_avg_cost_ok. simpl.
  destruct (iloc_last (dropna col)) as [cur|] eqn:Elast; [|intro H; left; congruence].
  rewrite current_pct_change_ok. simpl.
  destruct (read_pct_changes _) as [hist|e] eqn:Eread; simpl; [|discriminate].
  intro H. inversion H; subst st'; clear H. right.
  unfold read_pct_changes in Eread.
  destruct (if (0 <? List.length ps)%nat then Some (set_first_zero ps) else pct_changes st)
    as [s|] eqn:Evar; [|discriminate].
  inversion Eread; subst s.
  eapply (mkStored price_data st stock_code info _ col first_buy others ps (rc, ru) cur hist);
    simpl; auto.
  now apply length_pos_nonempty.
Qed.

(** What one price date appends. *)
Lemma price_date_step_cases all_tx s d price s' :
  price_date_step all_tx s (d, price) = Ok s' ->
  exists cost u,
    replay (transactions_up_to_date all_tx d) initial_position = Ok (cost, u) /\
    ((0 < u /\ ~ cost / u == 0 /\
      s' = s ++ [(d, cap_return ((price - cost / u) / (cost / u) * 100))]) \/
     (u <= 0 /\ s <> [] /\ s' = s ++ [(d, 0)]) \/
     (u <= 0 /\ s = [] /\ s' = [])).
Proof.
  unfold price_date_step.
  destruct (replay (transactions_up_to_date all_tx d) initial_position)
    as [[cost u]|e] eqn:Erep; simpl; [|discriminate].
  intro H. exists cost, u. split; [reflexivity|].
  destruct (Qltb 0 u) eqn:Eu.
  - apply Qltb_iff in Eu. rewrite (pydiv_pos _ _ _ Eu) in H. simpl in H.
    unfold pydiv in H. destruct (Qeq_bool (cost / u) 0) eqn:Ez; simpl in H; [discriminate|].
    apply Qeq_bool_neq in Ez. inversion H. left. auto.
  - apply Qltb_false_iff in Eu. right. destruct s as [|p s0]; simpl in H.
    + right. inversion H. auto.
    + left. inversion H. repeat split; auto. discriminate.
Qed.

Lemma set_first_zero_good s : s <> [] -> zero_at_entry (set_first_zero s).
Proof.
  destruct s as [|[d v] r]; [congruence|]. intros _. exists d, r. reflexivity.
Qed.

Lemma In_dict_set {V} (k0 : string) (v0 : V) (d : dict V) k v :
  In (k, v) (dict_set k0 v0 d) -> (k, v) = (k0, v0) \/ In (k, v) d.
Proof.
  induction d as [|[k1 v1] r IH]; simpl.
  - intros [H|[]]; auto.
  - destruct (String.eqb k0 k1); simpl; intros [H|H]; auto.
    destruct (IH H); auto.
Qed.

Lemma stored_good price_data st stock_code info st' :
  stored price_data st stock_code info st' -> good_state st -> good_state st'.
Proof.
  intros [col fb others ps pos cur hist Hcol Hbuys Hne Hloop Hrep Hlast Hvar Hread Hdata]
         [Hv Hd].
  assert (Hgood : forall s, pct_changes st' = Some s -> zero_at_entry s).
  { intros s Hs. rewrite Hvar in Hs.
    destruct (0 <? List.length ps)%nat eqn:El.
    - inversion Hs; subst s. apply set_first_zero_good.
      now apply length_pos_nonempty.
    - now apply Hv. }
  split; [assumption|].
  intros k r Hin. rewrite Hdata in Hin. apply In_dict_set in Hin as [Heq|Hin].
  - inversion Heq; subst; simpl. now apply Hgood.
  - eapply Hd; eauto.
Qed.

Lemma stocks_loop_good price_data items : forall st st',
  stocks_loop price_data st items = Ok st' -> good_state st -> good_state st'.
Proof.
  induction items as [|[code info] r IH]; intros st st' H Hst; cbn [stocks_loop] in H.
  - inversion H; subst; assumption.
  - destruct (process_stock price_data st (code, info)) as [st1|e] eqn:E1;
      cbn [bind] in H; [|discriminate].
    apply (IH st1 st' H).
    apply process_stock_inv in E1 as [->|Hs]; [assumption|].
    eapply stored_good; eauto.
Qed.

Lemma calculate_performance_good stock_transactions price_data perf code r :
  calculate_performance_from_entries stock_transactions price_data = Ok perf ->
  In (code, r) perf -> zero_at_entry (historical_pct r).
Proof.
  unfold calculate_performance_from_entries.
  destruct (stocks_loop price_data _ stock_transactions) as [st|e] eqn:E;
    simpl; [|discriminate].
  intros H Hin. inversion H; subst perf.
  apply stocks_loop_good in E.
  - destruct E as [_ Hd]. eapply Hd; eauto.
  - split; simpl; [discriminate | intros ? ? []].
Qed.

(** Scenario A of the specification: the trajectory is 0, 10, -10, 20 and the
    current return is 20. *)
Example scenario_A :
  exists r, calculate_performance_from_entries scenario_A_stocks scenario_A_prices
              = Ok [("0388"%string, r)] /\
            reduced (historical_pct r) = [(1%Z, 0); (2%Z, 10); (3%Z, -10); (4%Z, 20)] /\
            pct_change r == 20 /\ entry_price r == 10.
Proof. eexists. repeat split; reflexivity. Qed.

(** C3.  Every record that the engine returns has a trajectory whose first
    point is exactly zero; the assignment to the first point overwrites
    whatever the return formula gave for that date. *)
Theorem first_point_is_zero :
  (forall stock_transactions price_data perf code r,
     calculate_performance_from_entries stock_transactions price_data = Ok perf ->
     In (code, r) perf ->
     exists d rest, historical_pct r = (d, 0) :: rest) /\
  (forall d v rest, set_first_zero ((d, v) :: rest) = (d, 0) :: rest).
Proof.
  split.
  - intros st pd perf code r H Hin.
    exact (calculate_performance_good _ _ _ _ _ H Hin).
  - reflexivity.
Qed.

(** Scenario A passes the hypotheses of [first_point_is_zero]. *)
Lemma first_point_is_zero_witness :
  exists perf r,
    calculate_performance_from_entries scenario_A_stocks scenario_A_prices = Ok perf /\
    In ("0388"%string, r) perf /\
    exists d rest, historical_pct r = (d, 0) :: rest.
Proof.
  do 2 eexists. split; [reflexivity|]. split; [left; reflexivity|].
  eapply (proj1 first_point_is_zero scenario_A_stocks scenario_A_prices);
    [reflexivity | left; reflexivity].
Defined.

(** ** Where a stored record comes from *)

Lemma stored_record_of price_data st code info st' :
  stored price_data st code info st' ->
  forall k r, In (k, r) (performance_data st') ->
    In (k, r) (performance_data st) \/ (k = code /\ record_of price_data code info r).
Proof.
  intros [col fb others ps pos cur hist Hcol Hbuys Hne Hloop Hrep Hlast Hvar Hread Hdata]
         k r Hin.
  rewrite Hdata in Hin. apply In_dict_set in Hin as [Heq|Hin]; [|auto].
  right. inversion Heq; subst k r. split; [reflexivity|].
  exists col, fb, others, pos, cur. simpl. repeat split; assumption.
Qed.

Lemma stocks_loop_record_of price_data items : forall st st',
  stocks_loop price_data st items = Ok st' ->
  forall k r, In (k, r) (performance_data st') ->
    In (k, r) (performance_data st) \/
    exists info, In (k, info) items /\ record_of price_data k info r.
Proof.
  induction items as [|[code info] rest IH]; intros st st' H k r Hin;
    cbn [stocks_loop] in H.
  - inversion H; subst; auto.
  - destruct (process_stock price_data st (code, info)) as [st1|e] eqn:E1;
      cbn [bind] in H; [|discriminate].
    destruct (IH st1 st' H k r Hin) as [Hin1 | (info' & Hi & Hr)].
    + apply process_stock_inv in E1 as [->|Hs]; [auto|].
      destruct (stored_record_of _ _ _ _ _ Hs k r Hin1) as [Hold | [-> Hr]]; [auto|].
      right. exists info. split; [left; reflexivity | assumption].
    + right. exists info'. split; [right; assumption | assumption].
Qed.

Lemma calculate_performance_record_of stock_transactions price_data perf code r :
  calculate_performance_from_entries stock_transactions price_data = Ok perf ->
  In (code, r) perf ->
  exists info, In (code, info) stock_transactions /\ record_of price_data code info r.
Proof.
  unfold calculate_performance_from_entries.
  destruct (stocks_loop price_data _ stock_transactions) as [st|e] eqn:E;
    cbn [bind]; [|discriminate].
  intros H Hin. inversion H; subst perf.
  destruct (stocks_loop_record_of _ _ _ _ E code r Hin) as [[]|Hr]. exact Hr.
Qed.

Lemma iloc_last_is_last (s : series) p :
  iloc_last s = Some p -> exists front d, s = front ++ [(d, p)].
Proof.
  unfold iloc_last. destruct (rev s) as [|[d q] r] eqn:E; [discriminate|].
  intro H. inversion H; subst q. exists (rev r), d.
  rewrite <- (rev_involutive s), E. reflexivity.
Qed.

(** C5.  In every returned record, [current_price] is the last point of the
    whole price series of the stock (NaN cells dropped, no restriction to
    the entry date), and [pct_change] is
    [(current_price - weighted_avg_cost) / weighted_avg_cost * 100] when
    [weighted_avg_cost > 0] and 0 otherwise, where [weighted_avg_cost] (the
    field [entry_price]) comes from the replay of all the transactions.
    The value is not capped: a Buy of 1 @ 1 with a price of 100 gives
    9900. *)
Theorem current_pct_change_uncapped :
  (forall stock_transactions price_data perf code r,
     calculate_performance_from_entries stock_transactions price_data = Ok perf ->
     In (code, r) perf ->
     exists col info pos,
       dict_get code price_data = Some col /\
       In (code, info) stock_transactions /\
       replay (sort_values (all_transactions info)) initial_position = Ok pos /\
       entry_price r = weighted_avg_cost_of pos /\
       (exists front d, dropna col = front ++ [(d, current_price r)]) /\
       (0 < entry_price r ->
        pct_change r = (current_price r - entry_price r) / entry_price r * 100) /\
       (entry_price r <= 0 -> pct_change r = 0)) /\
  (exists r,
     calculate_performance_from_entries tenfold_stocks tenfold_prices
       = Ok [("0388"%string, r)] /\
     pct_change r == 9900 /\ 1000 < pct_change r).
Proof.
  split.
  - intros st pd perf code r H Hin.
    destruct (calculate_performance_record_of _ _ _ _ _ H Hin)
      as (info & Hi & col & fb & others & pos & cur & Hcol & _ & Hrep & Hlast
          & Hep & Hcp & Hpc & _).
    exists col, info, pos. repeat split; try assumption.
    + rewrite Hcp. now apply iloc_last_is_last.
    + intro Hpos. rewrite Hpc, Hcp, <- Hep. unfold current_pct_change_of.
      apply Qltb_iff in Hpos. now rewrite Hpos.
    + intro Hle. rewrite Hpc, <- Hep. unfold current_pct_change_of.
      apply Qltb_false_iff in Hle. now rewrite Hle.
  - eexists. repeat split; reflexivity.
Qed.

(** Scenario A passes the hypotheses of [current_pct_change_uncapped]. *)
Lemma current_pct_change_uncapped_witness :
  exists perf r,
    calculate_performance_from_entries scenario_A_stocks scenario_A_prices = Ok perf /\
    In ("0388"%string, r) perf /\
    exists front d, dropna (prices_of [(1%Z, 10); (2%Z, 11); (3%Z, 9); (4%Z, 12)])
                    = front ++ [(d, current_price r)].
Proof.
  do 2 eexists. split; [reflexivity|]. split; [left; reflexivity|].
  destruct (proj1 current_pct_change_uncapped scenario_A_stocks scenario_A_prices
              _ "0388"%string _ eq_refl (or_introl eq_refl))
    as (col & info & pos & Hcol & _ & _ & _ & Hlast & _).
  inversion Hcol; subst col. exact Hlast.
Defined.

(** ** Exceptions that can leave the engine *)








(** The division of the return of a price date is not guarded: a position
    bought at price 0 raises there. *)
Example zero_cost_position_raises :
  calculate_performance_from_entries
    [("0388"%string, stock_of [mk_buy 1 100 0])] scenario_A_prices
  = Raise (ZeroDivisionError SiteCurrentReturn).
Proof. reflexivity. Qed.

(** ** A stock without any trajectory point *)

Lemma stocks_loop_app price_data before after st :
  stocks_loop price_data st (before ++ after) =
  (st' <- stocks_loop price_data st before ;; stocks_loop price_data st' after).
Proof.
  revert st. induction before as [|item r IH]; intro st; cbn [stocks_loop app bind].
  - reflexivity.
  - destruct (process_stock price_data st item); cbn [bind]; [apply IH | reflexivity].
Qed.

Lemma price_date_loop_no_units all_tx entry_prices :
  (forall d p, In (d, p) entry_prices ->
     exists pos, replay (transactions_up_to_date all_tx d) initial_position = Ok pos /\
                 snd pos <= 0) ->
  price_date_loop all_tx [] entry_prices = Ok [].
Proof.
  induction entry_prices as [|[d p] r IH]; intro H; cbn [price_date_loop].
  - reflexivity.
  - destruct (H d p (or_introl eq_refl)) as ([cost u] & Hrep & Hle).
    unfold price_date_step. rewrite Hrep. cbn [bind]. simpl in Hle.
    apply Qltb_false_iff in Hle. rewrite Hle. cbn.
    apply IH. intros d' p' Hin. apply (H d' p'). now right.
Qed.

Lemma iloc_last_nonempty (s : series) : s <> [] -> exists p, iloc_last s = Some p.
Proof.
  intro H. unfold iloc_last. destruct (rev s) as [|[d p] r] eqn:E; [|eauto].
  exfalso. apply H. rewrite <- (rev_involutive s), E. reflexivity.
Qed.

Lemma nonempty_length_pos {A} (l : list A) : l <> [] -> (0 <? List.length l)%nat = true.
Proof. destruct l; [congruence | reflexivity]. Qed.

Lemma filter_nonempty {A} (f : A -> bool) (l : list A) : filter f l <> [] -> l <> [].
Proof. destruct l; [simpl; congruence | congruence]. Qed.

Lemma process_stock_no_point price_data stock_code info st :
  no_point_appended price_data stock_code info ->
  exists r,
    historical_pct r = match pct_changes st with Some s => s | None => [] end /\
    process_stock price_data st (stock_code, info) =
    match pct_changes st with
    | Some s =>
        Ok {| pct_changes := Some s;
              performance_data :=
                dict_set stock_code r (performance_data st) |}
    | None => Raise (UnboundLocalError "pct_changes")
    end.
Proof.
  intros (col & fb & others & Hcol & Hbuys & Hne & Hall).
  unfold process_stock. rewrite Hcol, Hbuys.
  assert (Hsp : dropna col <> []) by (eapply filter_nonempty; exact Hne).
  assert (Hat : all_transactions info <> []).
  { apply (filter_nonempty is_buy). rewrite Hbuys. discriminate. }
  rewrite (nonempty_length_pos _ Hsp), (nonempty_length_pos _ Hat),
    (nonempty_length_pos _ Hne). cbn [andb].
  rewrite (price_date_loop_no_units _ _ Hall). cbn [bind List.length Nat.ltb Nat.leb].
  destruct (replay_total (sort_values (all_transactions info)) initial_position)
    as [[rc ru] ->]. cbn [bind].
  rewrite weighted_avg_cost_ok. cbn [bind].
  destruct (iloc_last_nonempty _ Hsp) as [cur ->].
  rewrite current_pct_change_ok. cbn [bind].
  destruct (pct_changes st) as [s|]; cbn [read_pct_changes bind].
  - eexists. split; [|reflexivity]. reflexivity.
  - exists (mkPerformanceRecord 0 0 0 0 0%Z [] 0). split; reflexivity.
Qed.

(** C10.  When the prices on or after the date of the first Buy row are not
    empty but the replay holds no units on any of them, the iteration does
    not skip the stock.  With [pct_changes] bound by an earlier stock it
    stores a record whose trajectory is that earlier trajectory, and leaves
    the variable as it was; with [pct_changes] unbound it raises
    [UnboundLocalError] (a [NameError]), and so does the whole call, which
    returns no mapping at all. *)
Theorem leftover_trajectory_or_name_error price_data stock_code info :
  no_point_appended price_data stock_code info ->
  (forall st s, pct_changes st = Some s ->
     exists r,
       process_stock price_data st (stock_code, info) =
       Ok {| pct_changes := Some s;
             performance_data := dict_set stock_code r (performance_data st) |} /\
       historical_pct r = s) /\
  (forall st, pct_changes st = None ->
     process_stock price_data st (stock_code, info) =
     Raise (UnboundLocalError "pct_changes")) /\
  (forall before after st,
     stocks_loop price_data initial_state before = Ok st ->
     pct_changes st = None ->
     calculate_performance_from_entries (before ++ (stock_code, info) :: after) price_data =
     Raise (UnboundLocalError "pct_changes")) /\
  (forall before st s,
     stocks_loop price_data initial_state before = Ok st ->
     pct_changes st = Some s ->
     exists r,
       calculate_performance_from_entries (before ++ [(stock_code, info)]) price_data =
       Ok (dict_set stock_code r (performance_data st)) /\
       historical_pct r = s).
Proof.
  intro Hno. split; [|split; [|split]].
  - intros st s Hs. destruct (process_stock_no_point _ _ _ st Hno) as (r & Hh & Hp).
    rewrite Hs in Hp, Hh. eauto.
  - intros st Hs. destruct (process_stock_no_point _ _ _ st Hno) as (r & _ & Hp).
    now rewrite Hs in Hp.
  - intros before after st Hbefore Hs.
    unfold calculate_performance_from_entries. fold initial_state.
    rewrite stocks_loop_app, Hbefore. cbn [bind stocks_loop].
    destruct (process_stock_no_point _ _ _ st Hno) as (r & _ & Hp).
    rewrite Hs in Hp. rewrite Hp. reflexivity.
  - intros before st s Hbefore Hs.
    unfold calculate_performance_from_entries. fold initial_state.
    rewrite stocks_loop_app, Hbefore. cbn [bind stocks_loop].
    destruct (process_stock_no_point _ _ _ st Hno) as (r & Hh & Hp).
    rewrite Hs in Hp, Hh. rewrite Hp. cbn [bind performance_data]. eauto.
Qed.

Lemma late_buy_no_point : no_point_appended two_columns "0823" (snd late_buy).
Proof.
  exists (prices_of [(1%Z, 50); (2%Z, 51)]), (mk_buy 1 0 10), [mk_buy 9 100 10].
  split; [reflexivity|]. split; [reflexivity|]. split; [discriminate|].
  intros d p [H|[H|[]]]; inversion H; subst; eexists; (split; [reflexivity | discriminate]).
Defined.

(** The stock of [late_buy] passes the hypothesis of
    [leftover_trajectory_or_name_error]: alone it makes the call raise. *)
Lemma leftover_trajectory_or_name_error_witness :
  no_point_appended two_columns "0823" (snd late_buy) /\
  calculate_performance_from_entries ([] ++ late_buy :: []) two_columns =
  Raise (UnboundLocalError "pct_changes").
Proof.
  split; [exact late_buy_no_point|].
  exact (proj1 (proj2 (proj2
           (leftover_trajectory_or_name_error two_columns "0823" (snd late_buy)
              late_buy_no_point)))
           [] [] initial_state eq_refl eq_refl).
Defined.

(** The docker loader hands [late_buy] to the engine. *)
Example late_buy_from_loader :
  DockerLoader.load_and_process_portfolio late_buy_csv = [late_buy].
Proof. reflexivity. Qed.

(** After the stock of Scenario A, the stock of [late_buy] gets the
    trajectory of Scenario A. *)
Example late_buy_after_scenario_A :
  exists rA rB,
    calculate_performance_from_entries (scenario_A_stocks ++ [late_buy]) two_columns
      = Ok [("0388"%string, rA); ("0823"%string, rB)] /\
    historical_pct rB = historical_pct rA /\
    reduced (historical_pct rB) = [(1%Z, 0); (2%Z, 10); (3%Z, -10); (4%Z, 20)].
Proof. do 2 eexists. repeat split; reflexivity. Qed.

(** ** Dictionaries *)

Lemma dict_get_set_same {V} k (v : V) d : dict_get k (dict_set k v d) = Some v.
Proof.
  induction d as [|[k1 v1] r IH]; simpl.
  - now rewrite String.eqb_refl.
  - destruct (String.eqb k k1) eqn:E; simpl.
    + now rewrite String.eqb_refl.
    + now rewrite E.
Qed.

Lemma dict_get_set_other {V} k k' (v : V) d :
  String.eqb k' k = false -> dict_get k' (dict_set k v d) = dict_get k' d.
Proof.
  intro Hne. induction d as [|[k1 v1] r IH]; simpl.
  - now rewrite Hne.
  - destruct (String.eqb k k1) eqn:E; simpl.
    + apply String.eqb_eq in E. subst k1. now rewrite Hne.
    + now rewrite IH.
Qed.

Lemma dict_keys_set {V} k (v : V) d :
  dict_keys (dict_set k v d) = dict_keys d \/
  (~ In k (dict_keys d) /\ dict_keys (dict_set k v d) = dict_keys d ++ [k]).
Proof.
  induction d as [|[k1 v1] r IH]; simpl.
  - right. auto.
  - destruct (String.eqb k k1) eqn:E; simpl.
    + apply String.eqb_eq in E. subst k1. now left.
    + apply String.eqb_neq in E. destruct IH as [->|[Hn ->]]; [now left|].
      right. split; [|reflexivity]. intros [H|H]; [congruence | contradiction].
Qed.

Lemma dict_set_NoDup {V} k (v : V) d :
  NoDup (dict_keys d) -> NoDup (dict_keys (dict_set k v d)).
Proof.
  intro H. destruct (dict_keys_set k v d) as [->|[Hn ->]]; [assumption|].
  apply NoDup_app; [assumption | repeat constructor; intros [] | ].
  intros x Hx [Hk|[]]. subst x. contradiction.
Qed.

Lemma dict_get_In {V} k (v : V) d : dict_get k d = Some v -> In (k, v) d.
Proof.
  induction d as [|[k1 v1] r IH]; simpl; [discriminate|].
  destruct (String.eqb k k1) eqn:E.
  - apply String.eqb_eq in E. intro H. inversion H; subst. now left.
  - intro H. right. now apply IH.
Qed.

Lemma In_dict_get {V} k (v : V) d :
  NoDup (dict_keys d) -> In (k, v) d -> dict_get k d = Some v.
Proof.
  induction d as [|[k1 v1] r IH]; simpl; [intros _ []|].
  intros Hnd [H|H].
  - inversion H; subst. now rewrite String.eqb_refl.
  - inversion Hnd as [|? ? Hn Hr]; subst.
    destruct (String.eqb k k1) eqn:E.
    + apply String.eqb_eq in E. subst k1. exfalso. apply Hn.
      change k with (fst (k, v)). now apply in_map.
    + now apply IH.
Qed.

(** ** The two loaders, through what they share *)

Section Loader.

Variable V : Type.
Variable units_of : V -> Q.
Variable fresh : V.
Variable step : dict V -> Row -> dict V.
Variable delta : Row -> Q.

Let entry (stock_code : string) (d : dict V) : V :=
  match dict_get stock_code d with
  | Some info => info
  | None => fresh
  end.

Hypothesis fresh_units : units_of fresh == 0.
Hypothesis step_invalid :
  forall d row, valid_stock_code (row_Stock row) = false -> step d row = d.
Hypothesis step_valid :
  forall d row, valid_stock_code (row_Stock row) = true ->
    exists info,
      step d row = dict_set (row_Stock row) info d /\
      units_of info == units_of (entry (row_Stock row) d) + delta row.

Lemma fold_step_NoDup rows : forall d,
  NoDup (dict_keys d) -> NoDup (dict_keys (fold_left step rows d)).
Proof.
  induction rows as [|row r IH]; intros d Hd; simpl; [assumption|].
  apply IH. destruct (valid_stock_code (row_Stock row)) eqn:Ev.
  - destruct (step_valid d row Ev) as (info & -> & _). now apply dict_set_NoDup.
  - now rewrite step_invalid.
Qed.

Lemma fold_step_invalid stock_code rows : forall d,
  valid_stock_code stock_code = false ->
  dict_get stock_code (fold_left step rows d) = dict_get stock_code d.
Proof.
  induction rows as [|row r IH]; intros d Hv; simpl; [reflexivity|].
  rewrite IH by assumption.
  destruct (valid_stock_code (row_Stock row)) eqn:Ev.
  - destruct (step_valid d row Ev) as (info & -> & _).
    apply dict_get_set_other.
    destruct (String.eqb stock_code (row_Stock row)) eqn:E; [|reflexivity].
    apply String.eqb_eq in E. congruence.
  - now rewrite step_invalid.
Qed.

Lemma fold_step_units stock_code rows : forall d,
  valid_stock_code stock_code = true ->
  units_of (entry stock_code (fold_left step rows d)) ==
  units_of (entry stock_code d) + Qsum (map delta (filter (same_stock stock_code) rows)).
Proof.
  induction rows as [|row r IH]; intros d Hv; simpl.
  - ring.
  - rewrite IH by assumption. clear IH.
    unfold same_stock at 2. destruct (String.eqb (row_Stock row) stock_code) eqn:E.
    + apply String.eqb_eq in E. subst stock_code.
      destruct (step_valid d row Hv) as (info & Hs & Hu). rewrite Hs.
      unfold entry at 1. rewrite dict_get_set_same. rewrite Hu. simpl. ring.
    + assert (Hsame : dict_get stock_code (step d row) = dict_get stock_code d).
      { destruct (valid_stock_code (row_Stock row)) eqn:Ev.
        - destruct (step_valid d row Ev) as (info & -> & _).
          apply dict_get_set_other. now rewrite String.eqb_sym.
        - now rewrite step_invalid. }
      unfold entry. rewrite Hsame. reflexivity.
Qed.

(** The keys that survive the final filter on [current_units > 0]. *)
Lemma kept_keys stock_code rows :
  In stock_code
     (dict_keys (filter (fun kv => Qltb 0 (units_of (snd kv))) (fold_left step rows []))) <->
  valid_stock_code stock_code = true /\
  0 < Qsum (map delta (filter (same_stock stock_code) rows)).
Proof.
  pose proof (fold_step_NoDup rows [] (NoDup_nil _)) as Hnd.
  split.
  - intro Hin. unfold dict_keys in Hin. apply in_map_iff in Hin as ([k info] & Hk & Hf).
    simpl in Hk. subst k. apply filter_In in Hf as [Hin Hpos]. simpl in Hpos.
    apply Qltb_iff in Hpos. apply In_dict_get in Hin; [|assumption].
    destruct (valid_stock_code stock_code) eqn:Ev.
    + split; [reflexivity|].
      pose proof (fold_step_units stock_code rows [] Ev) as Hu.
      unfold entry in Hu. rewrite Hin in Hu. simpl in Hu.
      rewrite fresh_units in Hu. rewrite Hu in Hpos. lra.
    + rewrite (fold_step_invalid stock_code rows [] Ev) in Hin. discriminate.
  - intros [Hv Hpos].
    pose proof (fold_step_units stock_code rows [] Hv) as Hu.
    unfold entry in Hu. simpl in Hu. rewrite fresh_units in Hu.
    destruct (dict_get stock_code (fold_left step rows [])) as [info|] eqn:Eg.
    + unfold dict_keys. apply in_map_iff. exists (stock_code, info). split; [reflexivity|].
      apply filter_In. split; [now apply dict_get_In|].
      simpl. apply Qltb_iff. rewrite Hu. lra.
    + rewrite fresh_units in Hu. lra.
Qed.

End Loader.

Lemma docker_kept_keys stock_code rows :
  In stock_code
     (dict_keys (filter DockerLoader.has_current_units
                   (fold_left DockerLoader.process_row rows []))) <->
  valid_stock_code stock_code = true /\
  0 < Qsum (map docker_delta (filter (same_stock stock_code) rows)).
Proof.
  apply (kept_keys StockInfo current_units new_stock_info DockerLoader.process_row
           docker_delta).
  - reflexivity.
  - intros d row Hv. unfold DockerLoader.process_row. now rewrite Hv.
  - intros d row Hv. unfold DockerLoader.process_row, docker_delta, stock_entry.
    rewrite Hv. eexists. split; [reflexivity|].
    destruct (String.eqb (row_Type row) "Buy" && Qltb 0 (row_Units row)); simpl.
    + reflexivity.
    + destruct (String.eqb (row_Type row) "Sell" && Qltb 0 (row_Units row)); simpl; ring.
Qed.


Lemma docker_delta_sum rows : Qsum (map docker_delta rows) == bought_units rows.
Proof.
  unfold bought_units, quantities.
  induction rows as [|row r IH]; simpl; [reflexivity|].
  unfold docker_delta at 1.
  destruct (String.eqb (row_Type row) "Buy" && Qltb 0 (row_Units row)); simpl;
    rewrite IH; ring.
Qed.



(** The docker variant never subtracts a Sell from [current_units]: it keeps
    the instruments whose sum of buy quantities is strictly positive. *)
Lemma docker_loader_kept_instruments (csv : list CsvRow) (stock_code : string) :
  In stock_code (dict_keys (DockerLoader.load_and_process_portfolio csv)) <->
  valid_stock_code stock_code = true /\ 0 < bought_units (rows_of stock_code csv).
Proof.
  unfold DockerLoader.load_and_process_portfolio, rows_of.
  rewrite docker_kept_keys, docker_delta_sum. reflexivity.
Qed.

(** C6 at [sold_out_csv]: the instrument 0388 with Buy 100 and Sell 100 has
    net position 0 and is kept by the docker variant, whose filter is
    commented "filter stocks with current holdings" and which the server and
    bulletproof variants drop. *)
Lemma docker_keeps_sold_out :
  ~ (forall csv stock_code,
       In stock_code (dict_keys (DockerLoader.load_and_process_portfolio csv)) <->
       valid_stock_code stock_code = true /\ 0 < net_position (rows_of stock_code csv)).
Proof.
  intro H.
  assert (Hin : In "0388"%string
                  (dict_keys (DockerLoader.load_and_process_portfolio sold_out_csv))).
  { left. reflexivity. }
  apply H in Hin. destruct Hin as [_ Hpos]. vm_compute in Hpos. discriminate.
Qed.

(** The sibling loaders drop the instrument of [sold_out_csv]. *)
Example siblings_drop_sold_out :
  ServerLoader.load_and_process_portfolio sold_out_csv = [] /\
  Bulletproof.load_portfolio_simple sold_out_csv = [].
Proof. split; reflexivity. Qed.

(** The instrument of [sold_out_csv] reaches the engine, which stores a
    record with no units for it. *)
Example sold_out_reaches_engine :
  exists r,
    calculate_performance_from_entries
      (DockerLoader.load_and_process_portfolio sold_out_csv) six_days
    = Ok [("0388"%string, r)] /\ units r == 0 /\ entry_price r = 0.
Proof. eexists. repeat split; reflexivity. Qed.

(** ** The entry date *)

(** The entry date of a record is the date of the first Buy row of the
    stock, in the order of the rows. *)
Lemma entry_date_first_buy_row stock_transactions price_data perf code r :
  calculate_performance_from_entries stock_transactions price_data = Ok perf ->
  In (code, r) perf ->
  exists info first_buy other_buys,
    In (code, info) stock_transactions /\
    filter is_buy (all_transactions info) = first_buy :: other_buys /\
    entry_date r = Date first_buy.
Proof.
  intros H Hin.
  destruct (calculate_performance_record_of _ _ _ _ _ H Hin)
    as (info & Hi & col & fb & others & pos & cur & _ & Hb & _ & _ & _ & _ & _ & _ & Hd & _).
  exists info, fb, others. auto.
Qed.

(** With the Buy rows in chronological order the first Buy row is the
    earliest one. *)
Lemma earliest_buy_date_first txs first_buy other_buys :
  filter is_buy txs = first_buy :: other_buys ->
  Forall (fun t => (Date first_buy <= Date t)%Z) other_buys ->
  earliest_buy_date txs = Some (Date first_buy).
Proof.
  intros Hb Hall. unfold earliest_buy_date. rewrite Hb. simpl. f_equal. clear Hb.
  induction Hall as [|t r Ht Hr IH]; simpl; [reflexivity|].
  rewrite Z.min_l by assumption. exact IH.
Qed.

(** C7 at a file with the later Buy first: the loader keeps the order of
    the rows, the engine takes the date of the first Buy row, 5, and the
    earliest Buy is on day 1. *)
Theorem entry_date_follows_row_order :
  exists info r,
    DockerLoader.load_and_process_portfolio unordered_csv = [("0388"%string, info)] /\
    calculate_performance_from_entries [("0388"%string, info)] six_days
      = Ok [("0388"%string, r)] /\
    entry_date r = 5%Z /\
    earliest_buy_date (all_transactions info) = Some 1%Z.
Proof. do 2 eexists. repeat split; reflexivity. Qed.

(** * Further properties of the engine *)

(** ** Stocks that are passed over *)

Lemma process_stock_skipped price_data stock_code info st :
  skipped price_data stock_code info ->
  process_stock price_data st (stock_code, info) = Ok st.
Proof.
  unfold process_stock. intros [Hn | [Hb | (col & fb & others & Hcol & Hb & He)]].
  - now rewrite Hn.
  - destruct (dict_get stock_code price_data); [|reflexivity].
    destruct (_ && _); [|reflexivity]. now rewrite Hb.
  - rewrite Hcol. destruct (_ && _); [|reflexivity]. rewrite Hb, He. reflexivity.
Qed.

Lemma stocks_loop_skip price_data before stock_code info after st :
  skipped price_data stock_code info ->
  stocks_loop price_data st (before ++ (stock_code, info) :: after) =
  stocks_loop price_data st (before ++ after).
Proof.
  intro Hs. rewrite !stocks_loop_app.
  destruct (stocks_loop price_data st before) as [st1|e]; cbn [bind]; [|reflexivity].
  cbn [stocks_loop]. now rewrite (process_stock_skipped _ _ _ st1 Hs).
Qed.

(** X1.  A stock without a price column, without a Buy row, or without a
    price on or after the date of its first Buy row changes nothing: the
    call gives the same outcome with that stock taken out of
    [stock_transactions], wherever it stands. *)
Theorem skipped_stock_is_neutral price_data stock_code info before after :
  skipped price_data stock_code info ->
  calculate_performance_from_entries (before ++ (stock_code, info) :: after) price_data =
  calculate_performance_from_entries (before ++ after) price_data.
Proof.
  intro Hs. unfold calculate_performance_from_entries.
  now rewrite stocks_loop_skip.
Qed.

(** [unlisted] has no column in the prices of Scenario A. *)
Lemma skipped_stock_is_neutral_witness :
  skipped scenario_A_prices (fst unlisted) (snd unlisted) /\
  calculate_performance_from_entries
    ([] ++ (fst unlisted, snd unlisted) :: scenario_A_stocks) scenario_A_prices =
  calculate_performance_from_entries ([] ++ scenario_A_stocks) scenario_A_prices.
Proof.
  assert (Hs : skipped scenario_A_prices (fst unlisted) (snd unlisted))
    by (left; reflexivity).
  split; [exact Hs|].
  exact (skipped_stock_is_neutral scenario_A_prices (fst unlisted) (snd unlisted)
           [] scenario_A_stocks Hs).
Defined.

(** ** Where a record and its trajectory come from *)

Lemma stored_computed_from price_data st code info st' :
  stored price_data st code info st' ->
  forall k r, In (k, r) (performance_data st') ->
    In (k, r) (performance_data st) \/
    (k = code /\ exists col ps, computed_from price_data code info col ps r).
Proof.
  intros Hst k r Hin.
  destruct (stored_record_of _ _ _ _ _ Hst k r Hin) as [Hold | [-> Hrec]]; [auto|].
  destruct Hst as [col fb others ps pos cur hist Hcol Hbuys Hne Hloop Hrep Hlast
                     Hvar Hread Hdata].
  rewrite Hdata in Hin. apply In_dict_set in Hin as [Heq|Hin]; [|auto].
  right. split; [reflexivity|]. exists col, ps.
  inversion Heq; subst r; simpl. clear Heq.
  repeat split; try assumption.
  intro Hps. rewrite Hvar in Hread.
  rewrite (nonempty_length_pos _ Hps) in Hread. now inversion Hread.
Qed.

Lemma stocks_loop_computed_from price_data items : forall st st',
  stocks_loop price_data st items = Ok st' ->
  forall k r, In (k, r) (performance_data st') ->
    In (k, r) (performance_data st) \/
    exists info col ps, In (k, info) items /\ computed_from price_data k info col ps r.
Proof.
  induction items as [|[code info] rest IH]; intros st st' H k r Hin;
    cbn [stocks_loop] in H.
  - inversion H; subst; auto.
  - destruct (process_stock price_data st (code, info)) as [st1|e] eqn:E1;
      cbn [bind] in H; [|discriminate].
    destruct (IH st1 st' H k r Hin) as [Hin1 | (info' & col & ps & Hi & Hc)].
    + apply process_stock_inv in E1 as [->|Hs]; [auto|].
      destruct (stored_computed_from _ _ _ _ _ Hs k r Hin1)
        as [Hold | [-> (col & ps & Hc)]]; [auto|].
      right. exists info, col, ps. split; [left; reflexivity | assumption].
    + right. exists info', col, ps. split; [right; assumption | assumption].
Qed.

Lemma calculate_performance_computed_from stock_transactions price_data perf code r :
  calculate_performance_from_entries stock_transactions price_data = Ok perf ->
  In (code, r) perf ->
  exists info col ps,
    In (code, info) stock_transactions /\ computed_from price_data code info col ps r.
Proof.
  unfold calculate_performance_from_entries.
  destruct (stocks_loop price_data _ stock_transactions) as [st|e] eqn:E;
    cbn [bind]; [|discriminate].
  intros H Hin. inversion H; subst perf.
  destruct (stocks_loop_computed_from _ _ _ _ E code r Hin) as [[]|Hr]. exact Hr.
Qed.

Lemma stocks_loop_NoDup price_data items : forall st st',
  stocks_loop price_data st items = Ok st' ->
  NoDup (dict_keys (performance_data st)) -> NoDup (dict_keys (performance_data st')).
Proof.
  induction items as [|[code info] rest IH]; intros st st' H Hnd; cbn [stocks_loop] in H.
  - inversion H; subst; assumption.
  - destruct (process_stock price_data st (code, info)) as [st1|e] eqn:E1;
      cbn [bind] in H; [|discriminate].
    apply (IH st1 st' H).
    apply process_stock_inv in E1 as [->|Hs]; [assumption|].
    destruct Hs as [? ? ? ? ? ? ? _ _ _ _ _ _ _ _ Hdata]. rewrite Hdata.
    now apply dict_set_NoDup.
Qed.

Lemma filter_head_In {A} (f : A -> bool) (l : list A) x r :
  filter f l = x :: r -> In x l /\ f x = true.
Proof.
  intro H. apply filter_In. rewrite H. now left.
Qed.

(** X2.  The returned mapping has one record per code.  Every record belongs
    to a stock of [stock_transactions] that has a Buy row dated [entry_date]
    and a price column with a price on or after [entry_date]. *)
Theorem record_needs_buy_and_price stock_transactions price_data perf :
  calculate_performance_from_entries stock_transactions price_data = Ok perf ->
  NoDup (dict_keys perf) /\
  forall code r, In (code, r) perf ->
    exists info col,
      In (code, info) stock_transactions /\
      dict_get code price_data = Some col /\
      (exists t, In t (all_transactions info) /\ is_buy t = true /\
                 Date t = entry_date r) /\
      (exists d p, In (d, p) (dropna col) /\ (entry_date r <= d)%Z).
Proof.
  intro H. split.
  - unfold calculate_performance_from_entries in H.
    destruct (stocks_loop price_data _ stock_transactions) as [st|e] eqn:E;
      cbn [bind] in H; [|discriminate].
    inversion H; subst perf. apply (stocks_loop_NoDup _ _ _ _ E). constructor.
  - intros code r Hin.
    destruct (calculate_performance_computed_from _ _ _ _ _ H Hin)
      as (info & col & ps & Hi & Hrec & Hcol & Hne & _).
    exists info, col. split; [assumption|]. split; [assumption|]. split.
    + destruct Hrec as (col' & fb & others & pos & cur & _ & Hb & _ & _ & _ & _ & _ & _ & Hd & _).
      exists fb. apply filter_head_In in Hb as [Hfb Hbuy]. auto.
    + destruct (entry_prices_of (entry_date r) (dropna col)) as [|[d p] rest] eqn:E;
        [congruence|].
      exists d, p. apply filter_head_In in E as [Hin' Hle]. simpl in Hle.
      split; [assumption|]. now apply Z.leb_le.
Qed.

(** Scenario A passes the hypothesis of [record_needs_buy_and_price]. *)
Lemma record_needs_buy_and_price_witness :
  exists perf,
    calculate_performance_from_entries scenario_A_stocks scenario_A_prices = Ok perf /\
    NoDup (dict_keys perf).
Proof.
  eexists. split; [reflexivity|].
  exact (proj1 (record_needs_buy_and_price scenario_A_stocks scenario_A_prices _ eq_refl)).
Defined.

(** ** The dates of a trajectory *)

Lemma price_date_loop_dates_after all_tx entry_prices : forall s s',
  s <> [] -> price_date_loop all_tx s entry_prices = Ok s' ->
  dates_of s' = dates_of s ++ dates_of entry_prices.
Proof.
  induction entry_prices as [|[d p] rest IH]; intros s s' Hs H;
    cbn [price_date_loop] in H.
  - inversion H; subst. simpl. now rewrite app_nil_r.
  - destruct (price_date_step all_tx s (d, p)) as [s1|e] eqn:E1; cbn [bind] in H;
      [|discriminate].
    assert (Hs1 : s1 = s ++ [(d, snd (last s1 (d, 0)))] /\ s1 <> []).
    { apply price_date_step_cases in E1
        as (cost & u & _ & [(_ & _ & ->) | [(_ & _ & ->) | (_ & -> & _)]]);
        [| |congruence]; rewrite last_last; simpl;
        (split; [reflexivity | intro Hnil; now apply app_eq_nil in Hnil as [_ Hnil]]). }
    destruct Hs1 as [Heq Hne]. rewrite (IH s1 s' Hne H).
    rewrite Heq at 1. unfold dates_of. rewrite map_app. simpl.
    now rewrite <- app_assoc.
Qed.

Lemma price_date_loop_dates_start all_tx entry_prices : forall s',
  price_date_loop all_tx [] entry_prices = Ok s' ->
  exists passed kept,
    entry_prices = passed ++ kept /\
    dates_of s' = dates_of kept /\
    Forall (fun pt => no_units_on all_tx (fst pt)) passed /\
    match kept with
    | [] => True
    | pt :: _ => units_on all_tx (fst pt)
    end.
Proof.
  induction entry_prices as [|[d p] rest IH]; intros s' H; cbn [price_date_loop] in H.
  - inversion H; subst. exists [], []. repeat split. constructor.
  - destruct (price_date_step all_tx [] (d, p)) as [s1|e] eqn:E1; cbn [bind] in H;
      [|discriminate].
    apply price_date_step_cases in E1
      as (cost & u & Hrep & [(Hu & _ & Hs1) | [(_ & Hne & _) | (Hu & _ & Hs1)]]);
      [| congruence |].
    + exists [], ((d, p) :: rest). split; [reflexivity|]. split.
      * assert (Hne : s1 <> []) by (rewrite Hs1; discriminate).
        rewrite (price_date_loop_dates_after _ _ _ _ Hne H). now rewrite Hs1.
      * split; [constructor|]. exists (cost, u). auto.
    + subst s1. destruct (IH s' H) as (passed & kept & Heq & Hd & Hp & Hk).
      exists ((d, p) :: passed), kept. split; [now rewrite Heq|].
      split; [assumption|]. split; [|assumption].
      constructor; [|assumption]. exists (cost, u). auto.
Qed.

Lemma dates_of_set_first_zero s : dates_of (set_first_zero s) = dates_of s.
Proof. destruct s as [|[d v] r]; reflexivity. Qed.

(** X4.  A record whose stock appended at least one point has a trajectory
    without gaps: its dates are the price dates on or after the entry date,
    from the first one on which the replay holds units to the last price
    date; on the price dates before it the replay holds no units. *)
Theorem trajectory_dates_have_no_gap stock_transactions price_data perf code r :
  calculate_performance_from_entries stock_transactions price_data = Ok perf ->
  In (code, r) perf ->
  exists info col ps,
    In (code, info) stock_transactions /\
    dict_get code price_data = Some col /\
    price_date_loop (all_transactions info) []
      (entry_prices_of (entry_date r) (dropna col)) = Ok ps /\
    (ps <> [] ->
     exists passed first_held later,
       entry_prices_of (entry_date r) (dropna col) = passed ++ first_held :: later /\
       dates_of (historical_pct r) = dates_of (first_held :: later) /\
       Forall (fun pt => no_units_on (all_transactions info) (fst pt)) passed /\
       units_on (all_transactions info) (fst first_held)).
Proof.
  intros H Hin.
  destruct (calculate_performance_computed_from _ _ _ _ _ H Hin)
    as (info & col & ps & Hi & _ & Hcol & _ & Hloop & Hhist).
  exists info, col, ps. repeat (split; [assumption|]).
  intro Hps. rewrite (Hhist Hps), dates_of_set_first_zero.
  destruct (price_date_loop_dates_start _ _ _ Hloop) as (passed & kept & Heq & Hd & Hp & Hk).
  destruct kept as [|first_held later].
  - destruct ps; [congruence | discriminate].
  - exists passed, first_held, later. auto.
Qed.

(** Scenario A passes the hypotheses of [trajectory_dates_have_no_gap]. *)
Lemma trajectory_dates_have_no_gap_witness :
  exists perf r,
    calculate_performance_from_entries scenario_A_stocks scenario_A_prices = Ok perf /\
    In ("0388"%string, r) perf /\
    exists info col ps,
      In ("0388"%string, info) scenario_A_stocks /\
      dict_get "0388" scenario_A_prices = Some col /\
      price_date_loop (all_transactions info) []
        (entry_prices_of (entry_date r) (dropna col)) = Ok ps.
Proof.
  do 2 eexists. split; [reflexivity|]. split; [left; reflexivity|].
  destruct (trajectory_dates_have_no_gap scenario_A_stocks scenario_A_prices
              _ "0388"%string _ eq_refl (or_introl eq_refl))
    as (info & col & ps & H1 & H2 & H3 & _).
  exists info, col, ps. auto.
Defined.

(** ** The end of a trajectory and the current return *)

Lemma price_date_loop_app all_tx a b : forall s,
  price_date_loop all_tx s (a ++ b) =
  (s' <- price_date_loop all_tx s a ;; price_date_loop all_tx s' b).
Proof.
  induction a as [|pt r IH]; intro s; cbn [price_date_loop app bind]; [reflexivity|].
  destruct (price_date_step all_tx s pt); cbn [bind]; [apply IH | reflexivity].
Qed.

Lemma filter_all_true {A} (f : A -> bool) (l : list A) :
  Forall (fun x => f x = true) l -> filter f l = l.
Proof.
  intro H. induction H as [|x r Hx Hr IH]; simpl; [reflexivity|]. now rewrite Hx, IH.
Qed.

Lemma transactions_up_to_last_date all_tx d :
  Forall (fun t => (Date t <= d)%Z) all_tx ->
  transactions_up_to_date all_tx d = sort_values all_tx.
Proof.
  intro H. unfold transactions_up_to_date. rewrite filter_all_true; [reflexivity|].
  eapply Forall_impl; [|exact H]. simpl. intros t Ht. now apply Z.leb_le.
Qed.

Lemma iloc_last_app (front : series) d p : iloc_last (front ++ [(d, p)]) = Some p.
Proof. unfold iloc_last. now rewrite rev_app_distr. Qed.

(** X6.  When the last price of a stock is dated on or after the entry date
    and on or after every transaction of the stock, and the record holds
    units at a positive weighted average cost, the trajectory of the record
    ends on that date with the current percentage change, capped to
    [[-100, 1000]] (a trajectory of that single point shows 0). *)
Theorem trajectory_ends_at_current_return stock_transactions price_data perf code r :
  calculate_performance_from_entries stock_transactions price_data = Ok perf ->
  In (code, r) perf ->
  exists info col,
    In (code, info) stock_transactions /\
    dict_get code price_data = Some col /\
    forall front d p,
      dropna col = front ++ [(d, p)] ->
      (entry_date r <= d)%Z ->
      Forall (fun t => (Date t <= d)%Z) (all_transactions info) ->
      0 < units r -> 0 < entry_price r ->
      exists earlier,
        historical_pct r = set_first_zero (earlier ++ [(d, cap_return (pct_change r))]).
Proof.
  intros H Hin.
  destruct (calculate_performance_computed_from _ _ _ _ _ H Hin)
    as (info & col & ps & Hi & Hrec & Hcol & _ & Hloop & Hhist).
  exists info, col. split; [assumption|]. split; [assumption|].
  intros front d p Hdrop Hentry Hdates Hunits Hprice.
  destruct Hrec as (col' & fb & others & [c u] & cur & Hcol' & _ & Hrep & Hlast
                    & Hep & _ & Hpc & Hu & _).
  rewrite Hcol in Hcol'. inversion Hcol'; subst col'. clear Hcol'.
  rewrite Hdrop, iloc_last_app in Hlast. inversion Hlast; subst cur. clear Hlast.
  simpl in Hu. rewrite Hu in Hunits.
  assert (Hw : weighted_avg_cost_of (c, u) = c / u).
  { unfold weighted_avg_cost_of. simpl. apply Qltb_iff in Hunits. now rewrite Hunits. }
  rewrite Hw in Hep, Hpc. rewrite Hep in Hprice.
  assert (Hpct : pct_change r = (p - c / u) / (c / u) * 100).
  { rewrite Hpc. unfold current_pct_change_of. apply Qltb_iff in Hprice.
    now rewrite Hprice. }
  unfold entry_prices_of in Hloop. rewrite Hdrop, filter_app in Hloop.
  simpl in Hloop. apply Z.leb_le in Hentry. rewrite Hentry in Hloop.
  rewrite price_date_loop_app in Hloop.
  destruct (price_date_loop (all_transactions info) [] _) as [s1|e] eqn:E1;
    cbn [bind price_date_loop] in Hloop; [|discriminate].
  destruct (price_date_step (all_transactions info) s1 (d, p)) as [s2|e] eqn:E2;
    cbn [bind] in Hloop; [|discriminate].
  inversion Hloop; subst s2. clear Hloop.
  apply price_date_step_cases in E2 as (c' & u' & Hrep' & Hcases).
  rewrite (transactions_up_to_last_date _ _ Hdates), Hrep in Hrep'.
  inversion Hrep'; subst c' u'. clear Hrep'.
  destruct Hcases as [(_ & _ & Hps) | [(Hle & _) | (Hle & _)]]; try lra.
  exists s1. rewrite Hpct, <- Hps. apply Hhist. rewrite Hps.
  intro Hnil. now apply app_eq_nil in Hnil as [_ Hnil].
Qed.

(** Scenario A passes the hypotheses of [trajectory_ends_at_current_return]. *)
Lemma trajectory_ends_at_current_return_witness :
  exists perf r,
    calculate_performance_from_entries scenario_A_stocks scenario_A_prices = Ok perf /\
    In ("0388"%string, r) perf /\
    (entry_date r <= 4)%Z /\ 0 < units r /\ 0 < entry_price r /\
    exists earlier,
      historical_pct r = set_first_zero (earlier ++ [(4%Z, cap_return (pct_change r))]).
Proof.
  do 2 eexists. split; [reflexivity|]. split; [left; reflexivity|].
  split; [discriminate|]. split; [reflexivity|]. split; [reflexivity|].
  destruct (trajectory_ends_at_current_return scenario_A_stocks scenario_A_prices
              _ "0388"%string _ eq_refl (or_introl eq_refl))
    as (info & col & Hi & Hcol & Hend).
  destruct Hi as [Hi|[]]. inversion Hi; subst info. clear Hi.
  inversion Hcol; subst col. clear Hcol.
  apply (Hend [(1%Z, 10); (2%Z, 11); (3%Z, 9)] 4%Z 12).
  - reflexivity.
  - discriminate.
  - repeat constructor. discriminate.
  - reflexivity.
  - reflexivity.
Defined.

(** * What the loaders hand over *)

Lemma docker_step_invalid d row :
  valid_stock_code (row_Stock row) = false -> DockerLoader.process_row d row = d.
Proof. intro Hv. unfold DockerLoader.process_row. now rewrite Hv. Qed.

Lemma docker_step_other d row stock_code :
  same_stock stock_code row = false ->
  stock_entry stock_code (DockerLoader.process_row d row) = stock_entry stock_code d.
Proof.
  unfold same_stock. intro Hne. unfold DockerLoader.process_row.
  destruct (valid_stock_code (row_Stock row)); [|reflexivity].
  unfold stock_entry at 1 3. rewrite dict_get_set_other; [reflexivity|].
  now rewrite String.eqb_sym.
Qed.

Lemma stock_entry_set k info d : stock_entry k (dict_set k info d) = info.
Proof. unfold stock_entry. now rewrite dict_get_set_same. Qed.

Lemma docker_step_same d row :
  valid_stock_code (row_Stock row) = true ->
  let before := stock_entry (row_Stock row) d in
  let after := stock_entry (row_Stock row) (DockerLoader.process_row d row) in
  all_transactions after = all_transactions before ++ [to_transaction row] /\
  buy_transactions after =
    buy_transactions before ++ (if valid_row "Buy" row then [to_transaction row] else []) /\
  sell_transactions after =
    sell_transactions before ++ (if valid_row "Sell" row then [to_transaction row] else []) /\
  current_units after == current_units before + docker_delta row /\
  total_cost after == total_cost before + docker_cost_delta row.
Proof.
  intro Hv. cbv zeta. unfold DockerLoader.process_row. rewrite Hv.
  rewrite !stock_entry_set.
  unfold docker_delta, docker_cost_delta, valid_row, to_transaction.
  destruct (String.eqb (row_Type row) "Buy") eqn:Eb.
  - assert (Es : String.eqb (row_Type row) "Sell" = false).
    { apply String.eqb_eq in Eb. now rewrite Eb. }
    rewrite Es. simpl.
    destruct (Qltb 0 (row_Units row)); simpl;
      rewrite ?app_nil_r; repeat split; try reflexivity; ring.
  - simpl. destruct (String.eqb (row_Type row) "Sell" && Qltb 0 (row_Units row)); simpl;
      rewrite ?app_nil_r; repeat split; try reflexivity; ring.
Qed.

Lemma if_app_map {A B} (b : bool) (f : A -> B) (x : A) (l : list A) :
  (if b then [f x] else []) ++ map f l = map f (if b then x :: l else l).
Proof. destruct b; reflexivity. Qed.

Lemma docker_fold_entry stock_code rows : forall d,
  valid_stock_code stock_code = true ->
  let before := stock_entry stock_code d in
  let after := stock_entry stock_code (fold_left DockerLoader.process_row rows d) in
  let mine := filter (same_stock stock_code) rows in
  all_transactions after = all_transactions before ++ map to_transaction mine /\
  buy_transactions after =
    buy_transactions before ++ map to_transaction (filter (valid_row "Buy") mine) /\
  sell_transactions after =
    sell_transactions before ++ map to_transaction (filter (valid_row "Sell") mine) /\
  current_units after == current_units before + Qsum (map docker_delta mine) /\
  total_cost after == total_cost before + Qsum (map docker_cost_delta mine).
Proof.
  induction rows as [|row r IH]; intros d Hv; cbv zeta; simpl.
  - rewrite !app_nil_r. repeat split; try reflexivity; ring.
  - destruct (IH (DockerLoader.process_row d row) Hv) as (Ha & Hb & Hs & Hu & Hc).
    cbv zeta in Ha, Hb, Hs, Hu, Hc.
    destruct (same_stock stock_code row) eqn:E.
    + assert (Hcode : row_Stock row = stock_code) by now apply String.eqb_eq.
      rewrite <- Hcode in Hv.
      destruct (docker_step_same d row Hv) as (Sa & Sb & Ss & Su & Sc).
      cbv zeta in Sa, Sb, Ss, Su, Sc. rewrite Hcode in *.
      rewrite Ha, Hb, Hs, Hu, Hc, Sa, Sb, Ss, Su, Sc. simpl.
      rewrite <- !app_assoc. simpl.
      repeat split; try ring.
      * now rewrite if_app_map.
      * now rewrite if_app_map.
    + rewrite (docker_step_other d row stock_code E) in Ha, Hb, Hs, Hu, Hc.
      auto.
Qed.

Lemma docker_step_valid d row :
  valid_stock_code (row_Stock row) = true ->
  exists info,
    DockerLoader.process_row d row = dict_set (row_Stock row) info d /\
    current_units info ==
    current_units (match dict_get (row_Stock row) d with
                   | Some i => i
                   | None => new_stock_info
                   end) + docker_delta row.
Proof.
  intro Hv. unfold DockerLoader.process_row, docker_delta, stock_entry.
  rewrite Hv. eexists. split; [reflexivity|].
  destruct (String.eqb (row_Type row) "Buy" && Qltb 0 (row_Units row)); simpl.
  - reflexivity.
  - destruct (String.eqb (row_Type row) "Sell" && Qltb 0 (row_Units row)); simpl; ring.
Qed.

Lemma docker_fold_NoDup rows :
  NoDup (dict_keys (fold_left DockerLoader.process_row rows [])).
Proof.
  apply (fold_step_NoDup StockInfo current_units new_stock_info
           DockerLoader.process_row docker_delta docker_step_invalid docker_step_valid).
  constructor.
Qed.

Lemma docker_fold_invalid stock_code rows :
  valid_stock_code stock_code = false ->
  dict_get stock_code (fold_left DockerLoader.process_row rows []) = None.
Proof.
  intro Hv.
  now rewrite (fold_step_invalid StockInfo current_units new_stock_info
                 DockerLoader.process_row docker_delta docker_step_invalid
                 docker_step_valid stock_code rows [] Hv).
Qed.

Lemma docker_cost_delta_sum rows : Qsum (map docker_cost_delta rows) == bought_cost rows.
Proof.
  unfold bought_cost. induction rows as [|row r IH]; simpl; [reflexivity|].
  unfold docker_cost_delta at 1. destruct (valid_row "Buy" row); simpl; rewrite IH; ring.
Qed.

Lemma docker_kept_entry csv stock_code info :
  In (stock_code, info) (DockerLoader.load_and_process_portfolio csv) ->
  valid_stock_code stock_code = true /\
  0 < current_units info /\
  info = stock_entry stock_code
           (fold_left DockerLoader.process_row (filter is_hk_stock (dropna_Date csv)) []).
Proof.
  unfold DockerLoader.load_and_process_portfolio. intro Hin.
  apply filter_In in Hin as [Hin Hpos]. unfold DockerLoader.has_current_units in Hpos.
  simpl in Hpos. apply Qltb_iff in Hpos.
  apply In_dict_get in Hin; [|apply docker_fold_NoDup].
  split; [|split; [assumption|]].
  - destruct (valid_stock_code stock_code) eqn:Ev; [reflexivity|].
    rewrite (docker_fold_invalid _ _ Ev) in Hin. discriminate.
  - unfold stock_entry. now rewrite Hin.
Qed.

(** X12.  For every instrument that the docker loader keeps, the code has
    four digits, [all_transactions] holds all the dated HK rows of the code
    in file order (also rows with a quantity that is not positive or a kind
    that is neither Buy nor Sell), [buy_transactions] and
    [sell_transactions] hold the rows of that kind with a positive quantity
    in file order, [current_units] is the sum of the bought quantities and
    is positive, and [total_cost] is the sum of quantity times price over
    the buys. *)
Theorem docker_loader_contents (csv : list CsvRow) (stock_code : string) (info : StockInfo) :
  In (stock_code, info) (DockerLoader.load_and_process_portfolio csv) ->
  valid_stock_code stock_code = true /\
  all_transactions info = map to_transaction (rows_of stock_code csv) /\
  buy_transactions info
    = map to_transaction (filter (valid_row "Buy") (rows_of stock_code csv)) /\
  sell_transactions info
    = map to_transaction (filter (valid_row "Sell") (rows_of stock_code csv)) /\
  current_units info == bought_units (rows_of stock_code csv) /\
  0 < current_units info /\
  total_cost info == bought_cost (rows_of stock_code csv).
Proof.
  intro Hin. destruct (docker_kept_entry _ _ _ Hin) as (Hv & Hpos & Heq).
  destruct (docker_fold_entry stock_code (filter is_hk_stock (dropna_Date csv)) [] Hv)
    as (Ha & Hb & Hs & Hu & Hc).
  cbv zeta in Ha, Hb, Hs, Hu, Hc. rewrite <- Heq in Ha, Hb, Hs, Hu, Hc.
  fold (rows_of stock_code csv) in Ha, Hb, Hs, Hu, Hc.
  simpl in Ha, Hb, Hs, Hu, Hc.
  repeat split; try assumption.
  - rewrite Hu, docker_delta_sum. ring.
  - rewrite Hc, docker_cost_delta_sum. ring.
Qed.

(** The stock 0388 of [mixed_csv] passes the hypothesis of
    [docker_loader_contents]. *)
Lemma docker_loader_contents_witness :
  exists info,
    In ("0388"%string, info) (DockerLoader.load_and_process_portfolio mixed_csv) /\
    all_transactions info = map to_transaction (rows_of "0388" mixed_csv) /\
    List.length (all_transactions info) = 3%nat /\
    List.length (buy_transactions info) = 1%nat.
Proof.
  pose (info := stock_entry "0388"
                  (fold_left DockerLoader.process_row
                     (filter is_hk_stock (dropna_Date mixed_csv)) [])).
  assert (Hin : In ("0388"%string, info)
                   (DockerLoader.load_and_process_portfolio mixed_csv))
    by (vm_compute; left; reflexivity).
  exists info. split; [exact Hin|].
  split; [exact (proj1 (proj2 (docker_loader_contents _ _ _ Hin)))|].
  split; vm_compute; reflexivity.
Defined.

(** ** The bulletproof loader *)










(** ** The server loader *)






(** * The price sheet *)

Lemma ffill_from_length last prices :
  List.length (ffill_from last prices) = List.length prices.
Proof.
  revert last. induction prices as [|[v|] r IH]; intro last; simpl; auto.
Qed.

Lemma ffill_from_known prices : forall last i v,
  nth_error prices i = Some (Some v) ->
  nth_error (ffill_from last prices) i = Some (Some v).
Proof.
  induction prices as [|x r IH]; intros last i v H; destruct i; simpl in *;
    try discriminate.
  - inversion H; subst. reflexivity.
  - destruct x; simpl; now apply IH.
Qed.

Lemma ffill_from_gap prices : forall last i,
  nth_error prices (S i) = Some None ->
  nth_error (ffill_from last prices) (S i) = nth_error (ffill_from last prices) i.
Proof.
  induction prices as [|x r IH]; intros last i H; simpl in H; [discriminate|].
  destruct i.
  - destruct r as [|y r']; simpl in H; [discriminate|]. inversion H; subst y.
    destruct x; reflexivity.
  - destruct x; simpl; now apply IH.
Qed.

Lemma ffill_from_some_all v prices : forall j y,
  nth_error (ffill_from (Some v) prices) j = Some y -> exists w, y = Some w.
Proof.
  revert v. induction prices as [|x r IH]; intros v j y H; destruct j; simpl in H;
    try discriminate.
  - destruct x; simpl in H; inversion H; eauto.
  - destruct x; simpl in H; eapply IH; eauto.
Qed.

Lemma ffill_from_no_gap_after prices : forall last i j v,
  nth_error (ffill_from last prices) i = Some (Some v) ->
  (i <= j)%nat -> (j < List.length prices)%nat ->
  exists w, nth_error (ffill_from last prices) j = Some (Some w).
Proof.
  induction prices as [|x r IH]; intros last i j v H Hij Hj; simpl in Hj; [lia|].
  destruct i, j; try lia.
  - eauto.
  - assert (Hlen : (j < List.length (ffill_from (Some v) r))%nat)
      by (rewrite ffill_from_length; lia).
    apply nth_error_Some in Hlen.
    destruct (nth_error (ffill_from (Some v) r) j) as [y|] eqn:Ey; [|congruence].
    destruct (ffill_from_some_all _ _ _ _ Ey) as [w ->].
    exists w. destruct x as [x|]; simpl in H |- *; inversion H; subst; assumption.
  - destruct x; simpl in H |- *; eapply IH; eauto; lia.
Qed.

Lemma ffill_from_idempotent prices : forall last,
  ffill_from last (ffill_from last prices) = ffill_from last prices.
Proof.
  induction prices as [|x r IH]; intro last; simpl; [reflexivity|].
  destruct x; simpl.
  - now rewrite IH.
  - destruct last; simpl; now rewrite IH.
Qed.

(** X15.  Forward filling keeps the number of rows and every known price; a
    missing price takes the filled value of the row before it, and a missing
    price in the first row stays missing.  After the first row with a price
    no row is left without one, and filling twice changes nothing. *)
Theorem ffill_fills_gaps (prices : list (option Q)) :
  List.length (ffill prices) = List.length prices /\
  (forall i v, nth_error prices i = Some (Some v) ->
               nth_error (ffill prices) i = Some (Some v)) /\
  (forall i, nth_error prices (S i) = Some None ->
             nth_error (ffill prices) (S i) = nth_error (ffill prices) i) /\
  (nth_error prices 0 = Some None -> nth_error (ffill prices) 0 = Some None) /\
  (forall i j v, nth_error (ffill prices) i = Some (Some v) ->
                 (i <= j)%nat -> (j < List.length prices)%nat ->
                 exists w, nth_error (ffill prices) j = Some (Some w)) /\
  ffill (ffill prices) = ffill prices.
Proof.
  unfold ffill. split; [apply ffill_from_length|].
  split; [intros; now apply ffill_from_known|].
  split; [intros; now apply ffill_from_gap|].
  split.
  - destruct prices as [|[v|] r]; simpl; intro H; [discriminate|discriminate|reflexivity].
  - split; [apply ffill_from_no_gap_after | apply ffill_from_idempotent].
Qed.

(** [gappy_prices] passes the hypotheses of [ffill_fills_gaps]: the gap in
    row 3 takes the filled value of row 2. *)
Lemma ffill_fills_gaps_witness :
  nth_error gappy_prices 3 = Some None /\
  nth_error (ffill gappy_prices) 3 = nth_error (ffill gappy_prices) 2.
Proof.
  assert (H : nth_error gappy_prices 3 = Some None) by reflexivity.
  split; [exact H|].
  exact (proj1 (proj2 (proj2 (ffill_fills_gaps gappy_prices))) 2%nat H).
Defined.

Lemma dated_rows_all_priced v prices : forall dates,
  Forall priced (dated_rows dates (ffill_from (Some v) prices)).
Proof.
  revert v. induction prices as [|x r IH]; intros v dates.
  - destruct dates as [|[d|] ds]; constructor.
  - destruct dates as [|[d|] ds]; [constructor | |]; destruct x; simpl;
      try (constructor; [unfold priced; simpl; discriminate|]); apply IH.
Qed.

Lemma dropna_unpriced lead rest :
  Forall unpriced lead -> dropna (lead ++ rest) = dropna rest.
Proof.
  intro H. induction H as [|[d p] r Hp Hr IH]; simpl; [reflexivity|].
  unfold unpriced in Hp. simpl in Hp. now subst p.
Qed.

(** X16.  A column of the price sheet is a run of dated rows without a
    price followed by dated rows that all have one: the [dropna] of the
    engine removes only the rows before the first known price, and keeps
    every later date, filled or not. *)
Theorem sheet_column_has_no_gap (dates : list (option Timestamp))
  (prices : list (option Q)) :
  exists lead rest,
    sheet_column dates prices = lead ++ rest /\
    Forall unpriced lead /\ Forall priced rest /\
    dropna (sheet_column dates prices) = dropna rest /\
    dates_of (dropna (sheet_column dates prices)) = map fst rest.
Proof.
  assert (H : exists lead rest,
             sheet_column dates prices = lead ++ rest /\
             Forall unpriced lead /\ Forall priced rest).
  { unfold sheet_column, ffill. revert dates.
    induction prices as [|x r IH]; intro dates.
    - exists [], []. destruct dates as [|[d|] ds]; repeat split; constructor.
    - destruct dates as [|[d|] ds].
      + exists [], []. repeat split; constructor.
      + destruct x as [v|]; simpl.
        * exists [], ((d, Some v) :: dated_rows ds (ffill_from (Some v) r)).
          split; [reflexivity|]. split; [constructor|].
          constructor; [unfold priced; simpl; discriminate | apply dated_rows_all_priced].
        * destruct (IH ds) as (lead & rest & Heq & Hl & Hr).
          exists ((d, None) :: lead), rest. split; [simpl; now rewrite Heq|].
          split; [constructor; [reflexivity | assumption] | assumption].
      + destruct x as [v|]; simpl.
        * exists [], (dated_rows ds (ffill_from (Some v) r)).
          split; [reflexivity|]. split; [constructor | apply dated_rows_all_priced].
        * apply IH. }
  destruct H as (lead & rest & Heq & Hl & Hr).
  exists lead, rest. repeat (split; [assumption|]).
  assert (Hd : dropna (sheet_column dates prices) = dropna rest)
    by (rewrite Heq; now apply dropna_unpriced).
  split; [assumption|]. rewrite Hd. clear - Hr.
  induction Hr as [|[d p] r Hp Hrest IH]; simpl; [reflexivity|].
  unfold priced in Hp. simpl in Hp. destruct p; [|congruence].
  unfold dates_of in *. simpl. now rewrite IH.
Qed.

(** The price of a row whose date did not parse still fills the later
    rows. *)
Example undated_price_fills_later_rows :
  sheet_column undated_price_dates undated_price_cells = [(1%Z, None); (3%Z, Some 5)].
Proof. reflexivity. Qed.

(** * The replay over binary64 *)

Lemma positive_is_not_zero (u : float) :
  PrimFloat.ltb 0%float u = true -> PrimFloat.eqb u 0%float = false.
Proof.
  rewrite ltb_spec, eqb_spec. unfold SFltb, SFeqb.
  change (Prim2SF 0%float) with (S754_zero false).
  destruct (Prim2SF u) as [s|s| |s m e]; try destruct s; simpl; congruence.
Qed.

Lemma pydiv_positive site a u :
  PrimFloat.ltb 0%float u = true ->
  Binary64.pydiv site a u = Ok (PrimFloat.div a u).
Proof. intro H. unfold Binary64.pydiv. now rewrite (positive_is_not_zero u H). Qed.

Lemma apply_transaction_never_raises st t :
  exists st', Binary64.apply_transaction st t = Ok st'.
Proof.
  destruct st as [cost u]. unfold Binary64.apply_transaction.
  destruct (Binary64.is_buy t); [eauto|].
  destruct (Binary64.is_sell t); [|eauto].
  destruct (PrimFloat.ltb 0%float u) eqn:E; [|eauto].
  rewrite (pydiv_positive _ _ _ E). cbn [bind]. eauto.
Qed.

Lemma replay_never_raises txs : forall st, exists st', Binary64.replay txs st = Ok st'.
Proof.
  induction txs as [|t r IH]; intro st; simpl; [eauto|].
  destruct (apply_transaction_never_raises st t) as [st1 ->]. cbn [bind]. apply IH.
Qed.

Lemma apply_sell_binary64 cost u d q p :
  Binary64.apply_transaction (cost, u) (Binary64.mk_sell d q p) =
  Ok (if PrimFloat.ltb 0%float u
      then (PrimFloat.sub cost (PrimFloat.mul (PrimFloat.div cost u) q), PrimFloat.sub u q)
      else (cost, u)).
Proof.
  unfold Binary64.apply_transaction, Binary64.mk_sell. cbn.
  destruct (PrimFloat.ltb 0%float u) eqn:E; [|reflexivity].
  now rewrite (pydiv_positive _ _ _ E).
Qed.

(** C1, as amended.  In both replays (they share the loop body) no list of
    transactions and no starting position makes a division fail: a Sell
    divides by the units only when [units > 0] and leaves the position as it
    is otherwise.  The cost and the units are not kept from going negative:
    a Sell is never clamped, so after Buy 100 @ 10 a Sell of 150 leaves -50
    units and a cost of -500; and with rounding even a Sell of exactly the
    units held can leave a negative cost (Buy 100 @ 0.5, Buy 100 @ 0.6,
    Sell 200: no units, cost about -1.42e-14). *)
Theorem replay_handles_every_list :
  (forall txs st, exists st', Binary64.replay txs st = Ok st') /\
  (forall cost u d q p,
     Binary64.apply_transaction (cost, u) (Binary64.mk_sell d q p) =
     Ok (if PrimFloat.ltb 0%float u
         then (PrimFloat.sub cost (PrimFloat.mul (PrimFloat.div cost u) q),
               PrimFloat.sub u q)
         else (cost, u))) /\
  Binary64.replay [Binary64.mk_buy 1 100 10; Binary64.mk_sell 3 150 12]
    Binary64.initial_position = Ok ((-500)%float, (-50)%float) /\
  (exists cost,
     Binary64.replay [Binary64.mk_buy 1 100 0.5; Binary64.mk_buy 2 100 0.6;
                      Binary64.mk_sell 3 200 1]
       Binary64.initial_position = Ok (cost, 0%float) /\
     PrimFloat.ltb cost 0%float = true).
Proof.
  split; [intros; apply replay_never_raises|].
  split; [intros; apply apply_sell_binary64|].
  split; [reflexivity|].
  eexists. split; reflexivity.
Qed.




(** * The trajectory over binary64 *)

(** C4 at one Buy of 1e200 units @ 1e200 and the prices 1 and 2: the cost
    overflows to infinity, the return of the second date is
    [(2 - inf) / inf * 100], a NaN; a NaN is neither above 1000 nor below
    -100, so it is stored as it is, outside [[-100, 1000]]. *)
Theorem nan_return_escapes_cap :
  exists r v,
    Binary64.calculate_performance_from_entries
      Binary64.overflow_stocks Binary64.overflow_prices = Ok [("0388"%string, r)] /\
    Binary64.historical_pct r = [(1%Z, 0%float); (2%Z, v)] /\
    PrimFloat.is_nan v = true /\
    Binary64.cap_return v = v /\
    Binary64.in_bounds v = false.
Proof. do 2 eexists. repeat split; reflexivity. Qed.

(** * The chronological order over binary64 *)

Lemma replay_app before after st :
  Binary64.replay (before ++ after) st =
  (st' <- Binary64.replay before st ;; Binary64.replay after st').
Proof.
  revert st. induction before as [|t r IH]; intro st; simpl; [reflexivity|].
  destruct (Binary64.apply_transaction st t); simpl; [apply IH | reflexivity].
Qed.

Lemma insert_by_date_In t l u :
  In u (Binary64.insert_by_date t l) -> u = t \/ In u l.
Proof.
  induction l as [|a r IH]; simpl.
  - intros [H|[]]; auto.
  - destruct (Binary64.Date t <=? Binary64.Date a)%Z; simpl; intros [H|H]; auto.
    destruct (IH H); auto.
Qed.

Lemma insert_by_date_sorted t l :
  Binary64.by_date l -> Binary64.by_date (Binary64.insert_by_date t l).
Proof.
  unfold Binary64.by_date. intro H. induction H as [|a r Hr IH Ha]; simpl.
  - repeat constructor.
  - destruct (Binary64.Date t <=? Binary64.Date a)%Z eqn:E.
    + apply Z.leb_le in E. constructor; [now constructor|].
      constructor; [assumption|].
      eapply Forall_impl; [|exact Ha]. simpl. intros u Hu.
      now apply Z.le_trans with (Binary64.Date a).
    + apply Z.leb_gt in E. constructor; [assumption|].
      apply Forall_forall. intros u Hu. apply insert_by_date_In in Hu as [->|Hu].
      * now apply Z.lt_le_incl.
      * rewrite Forall_forall in Ha. now apply Ha.
Qed.

Lemma sort_values_sorted l : Binary64.by_date (Binary64.sort_values l).
Proof.
  induction l as [|t r IH]; simpl; [constructor | now apply insert_by_date_sorted].
Qed.

Lemma insert_by_date_perm t l : Permutation (Binary64.insert_by_date t l) (t :: l).
Proof.
  induction l as [|a r IH]; simpl; [reflexivity|].
  destruct (Binary64.Date t <=? Binary64.Date a)%Z; [reflexivity|].
  rewrite IH. apply perm_swap.
Qed.

Lemma sort_values_perm l : Permutation (Binary64.sort_values l) l.
Proof.
  induction l as [|t r IH]; simpl; [reflexivity|].
  rewrite insert_by_date_perm. now constructor.
Qed.

Lemma sort_values_sorts_by_date : Binary64.sorts_by_date Binary64.sort_values.
Proof. intro l. split; [apply sort_values_perm | apply sort_values_sorted]. Qed.

Lemma filter_all_later d l :
  Forall (fun t => (d < Binary64.Date t)%Z) l -> filter (Binary64.on_or_before d) l = [].
Proof.
  intro H. induction H as [|t r Ht Hr IH]; simpl; [reflexivity|].
  unfold Binary64.on_or_before at 1. apply Z.leb_gt in Ht. now rewrite Ht.
Qed.

Lemma sorted_split d l :
  Binary64.by_date l ->
  exists later, l = filter (Binary64.on_or_before d) l ++ later /\
                Forall (fun t => (d < Binary64.Date t)%Z) later.
Proof.
  unfold Binary64.by_date. intro H. induction H as [|a r Hr IH Ha]; simpl.
  - exists []. split; [reflexivity | constructor].
  - destruct (Binary64.on_or_before d a) eqn:Ea.
    + destruct IH as (later & Heq & Hl). exists later. split; [|assumption].
      simpl. now rewrite <- Heq.
    + unfold Binary64.on_or_before in Ea. apply Z.leb_gt in Ea.
      assert (Hall : Forall (fun t => (d < Binary64.Date t)%Z) (a :: r)).
      { constructor; [assumption|]. eapply Forall_impl; [|exact Ha].
        simpl. intros u Hu. lia. }
      exists (a :: r). split; [|assumption].
      inversion Hall; subst. now rewrite filter_all_later.
Qed.

Lemma Permutation_filter {A} (f : A -> bool) (l l' : list A) :
  Permutation l l' -> Permutation (filter f l) (filter f l').
Proof.
  intro H. induction H as [|x l l' H IH|x y l|l l' l'' H1 IH1 H2 IH2]; simpl.
  - constructor.
  - destruct (f x); [now constructor | assumption].
  - destruct (f x), (f y); try reflexivity. apply perm_swap.
  - now transitivity (filter f l').
Qed.

Lemma by_date_filter f l : Binary64.by_date l -> Binary64.by_date (filter f l).
Proof.
  unfold Binary64.by_date. intro H. induction H as [|a r Hr IH Ha]; simpl; [constructor|].
  destruct (f a); [|assumption]. constructor; [assumption|].
  apply Forall_forall. intros u Hu. apply filter_In in Hu as [Hu _].
  rewrite Forall_forall in Ha. now apply Ha.
Qed.

Lemma NoDup_dates_filter f (l : list Binary64.Transaction) :
  NoDup (map Binary64.Date l) -> NoDup (map Binary64.Date (filter f l)).
Proof.
  induction l as [|a r IH]; simpl; [auto|]. intro H. inversion H as [|? ? Hn Hr]; subst.
  destruct (f a); simpl; [|auto]. constructor; [|auto].
  intro Hin. apply Hn. apply in_map_iff in Hin as (u & Hu & Hin).
  apply filter_In in Hin as [Hin _]. apply in_map_iff. now exists u.
Qed.

(** Two lists with the same rows, both in the order of their dates, are the
    same list when no two rows share a date. *)
Lemma by_date_unique l : forall l',
  Binary64.by_date l -> Binary64.by_date l' -> Permutation l l' ->
  NoDup (map Binary64.Date l) -> l = l'.
Proof.
  induction l as [|a r IH]; intros l' Hl Hl' Hp Hn.
  - apply Permutation_nil in Hp. now subst.
  - destruct l' as [|b r'].
    { apply Permutation_sym, Permutation_nil in Hp. discriminate. }
    inversion Hl as [|? ? Hr Ha]; subst. inversion Hl' as [|? ? Hr' Hb]; subst.
    inversion Hn as [|? ? Hna Hnr]; subst.
    assert (Hab : a = b).
    { assert (Hina : In a (b :: r')) by (eapply Permutation_in; [exact Hp | now left]).
      assert (Hinb : In b (a :: r))
        by (eapply Permutation_in; [apply Permutation_sym; exact Hp | now left]).
      destruct Hina as [->|Hina]; [reflexivity|].
      destruct Hinb as [->|Hinb]; [reflexivity|].
      exfalso. rewrite Forall_forall in Ha, Hb.
      pose proof (Ha _ Hinb) as H1. pose proof (Hb _ Hina) as H2.
      apply Hna. replace (Binary64.Date a) with (Binary64.Date b) by lia.
      now apply in_map. }
    subst b. f_equal. apply IH; try assumption.
    now apply Permutation_cons_inv with a.
Qed.

(** X5.  Let [sort_values('Date')] be any function that returns the same
    rows in the order of their dates.  When no two transactions of a stock
    share a date, the list it gives for all the transactions is the one of
    the insertion sort, the transactions replayed for a price date (those
    dated on or before it, sorted) are the first part of that list, the rest
    of the list is dated after the price date, and the final replay goes
    through the position of the price date and continues from it with the
    later transactions. *)
Theorem price_date_replay_is_prefix
  (sort : list Binary64.Transaction -> list Binary64.Transaction)
  (all_tx : list Binary64.Transaction) (d : Timestamp) :
  Binary64.sorts_by_date sort ->
  NoDup (map Binary64.Date all_tx) ->
  sort all_tx = Binary64.sort_values all_tx /\
  sort (filter (Binary64.on_or_before d) all_tx) = Binary64.transactions_up_to_date all_tx d /\
  exists later,
    sort all_tx = Binary64.transactions_up_to_date all_tx d ++ later /\
    Forall (fun t => (d < Binary64.Date t)%Z) later /\
    Binary64.replay (sort all_tx) Binary64.initial_position =
    (pos <- Binary64.replay (Binary64.transactions_up_to_date all_tx d)
              Binary64.initial_position ;;
     Binary64.replay later pos).
Proof.
  intros Hsort Hn.
  assert (Huniq : forall l, NoDup (map Binary64.Date l) -> sort l = Binary64.sort_values l).
  { intros l Hl. destruct (Hsort l) as [Hp Hs].
    apply by_date_unique; [assumption | apply sort_values_sorted | |].
    - rewrite Hp. apply Permutation_sym, sort_values_perm.
    - eapply Permutation_NoDup; [|exact Hl].
      apply Permutation_map, Permutation_sym, Hp. }
  assert (Hup : sort (filter (Binary64.on_or_before d) all_tx)
                = Binary64.transactions_up_to_date all_tx d).
  { rewrite Huniq by now apply NoDup_dates_filter. reflexivity. }
  split; [now apply Huniq|]. split; [exact Hup|].
  destruct (Hsort all_tx) as [Hp Hs].
  destruct (sorted_split d (sort all_tx) Hs) as (later & Heq & Hl).
  assert (Hpre : filter (Binary64.on_or_before d) (sort all_tx)
                 = Binary64.transactions_up_to_date all_tx d).
  { rewrite <- Hup. destruct (Hsort (filter (Binary64.on_or_before d) all_tx)) as [Hp' Hs'].
    apply by_date_unique.
    - now apply by_date_filter.
    - assumption.
    - rewrite Hp'. now apply Permutation_filter.
    - apply NoDup_dates_filter. eapply Permutation_NoDup; [|exact Hn].
      apply Permutation_map, Permutation_sym, Hp. }
  rewrite Hpre in Heq. exists later.
  split; [assumption|]. split; [assumption|].
  rewrite Heq at 1. apply replay_app.
Qed.

(** The insertion sort and [three_dates] pass the hypotheses of
    [price_date_replay_is_prefix]: on day 5 the Buy of day 2 and the Buy of
    day 5 are replayed, the Sell of day 9 comes after. *)
Lemma price_date_replay_is_prefix_witness :
  Binary64.sorts_by_date Binary64.sort_values /\
  NoDup (map Binary64.Date Binary64.three_dates) /\
  Binary64.transactions_up_to_date Binary64.three_dates 5%Z
    = [Binary64.mk_buy 2 50 8; Binary64.mk_buy 5 100 10] /\
  exists later,
    Binary64.sort_values Binary64.three_dates
      = Binary64.transactions_up_to_date Binary64.three_dates 5%Z ++ later /\
    Forall (fun t => (5 < Binary64.Date t)%Z) later.
Proof.
  assert (Hn : NoDup (map Binary64.Date Binary64.three_dates)).
  { simpl. repeat constructor; simpl; intuition discriminate. }
  split; [exact sort_values_sorts_by_date|]. split; [exact Hn|].
  split; [reflexivity|].
  destruct (price_date_replay_is_prefix Binary64.sort_values Binary64.three_dates 5%Z
              sort_values_sorts_by_date Hn) as (_ & _ & later & Heq & Hl & _).
  exists later. split; assumption.
Defined.

(** * The summary of [main] over binary64 *)

(** ** The order of binary64 *)

Ltac compare_cases :=
  repeat match goal with
  | |- context [(?a ?= ?b)%Z] => destruct (Z.compare_spec a b)
  | H : context [(?a ?= ?b)%Z] |- _ => destruct (Z.compare_spec a b)
  | |- context [PosDef.Pos.compare_cont Eq ?a ?b] =>
      change (PosDef.Pos.compare_cont Eq a b) with (Pos.compare a b);
      destruct (Pos.compare_spec a b)
  | H : context [PosDef.Pos.compare_cont Eq ?a ?b] |- _ =>
      change (PosDef.Pos.compare_cont Eq a b) with (Pos.compare a b) in H;
      destruct (Pos.compare_spec a b)
  end.

Lemma SFleb_trans x y z : SFleb x y = true -> SFleb y z = true -> SFleb x z = true.
Proof.
  unfold SFleb.
  destruct x as [sx|sx| |sx mx ex], y as [sy|sy| |sy my ey], z as [sz|sz| |sz mz ez];
    simpl; try congruence;
    try destruct sx; try destruct sy; try destruct sz; simpl; try congruence;
    compare_cases; simpl; subst; try congruence; try lia.
Qed.

Lemma SFltb_negb_leb x y :
  x <> S754_nan -> y <> S754_nan -> SFltb x y = negb (SFleb y x).
Proof.
  unfold SFltb, SFleb.
  destruct x as [sx|sx| |sx mx ex], y as [sy|sy| |sy my ey]; try congruence;
    intros _ _; simpl;
    try destruct sx; try destruct sy; simpl; try congruence;
    compare_cases; simpl; subst; try congruence; try lia.
Qed.

Lemma SFcompare_refl x : x <> S754_nan -> SFcompare x x = Some Eq.
Proof.
  destruct x as [s|s| |s m e]; try congruence; intros _; simpl;
    try (destruct s; reflexivity).
  rewrite Z.compare_refl.
  change (PosDef.Pos.compare_cont Eq m m) with (Pos.compare m m).
  rewrite Pos.compare_refl. now destruct s.
Qed.

Lemma is_nan_false x : PrimFloat.is_nan x = false <-> Prim2SF x <> S754_nan.
Proof.
  unfold PrimFloat.is_nan. rewrite eqb_spec. unfold SFeqb. split.
  - intros H E. rewrite E in H. discriminate.
  - intro H. now rewrite SFcompare_refl.
Qed.

Lemma leb_trans x y z :
  PrimFloat.leb x y = true -> PrimFloat.leb y z = true -> PrimFloat.leb x z = true.
Proof. rewrite !leb_spec. apply SFleb_trans. Qed.

Lemma ltb_negb_leb x y :
  PrimFloat.is_nan x = false -> PrimFloat.is_nan y = false ->
  PrimFloat.ltb x y = negb (PrimFloat.leb y x).
Proof. rewrite !is_nan_false, ltb_spec, leb_spec. apply SFltb_negb_leb. Qed.

Lemma ltb_leb x y : PrimFloat.ltb x y = true -> PrimFloat.leb x y = true.
Proof.
  rewrite ltb_spec, leb_spec. unfold SFltb, SFleb.
  destruct (SFcompare (Prim2SF x) (Prim2SF y)) as [[]|]; congruence.
Qed.

Lemma leb_refl x : PrimFloat.is_nan x = false -> PrimFloat.leb x x = true.
Proof.
  rewrite is_nan_false, leb_spec. intro H. unfold SFleb. now rewrite SFcompare_refl.
Qed.

(** ** The ranking *)

Section Ranking.

Context {A : Type} (key : A -> float).

Lemma insert_desc_perm x l : Permutation (Binary64.insert_desc key x l) (x :: l).
Proof.
  induction l as [|y r IH]; simpl; [reflexivity|].
  destruct (PrimFloat.ltb (key x) (key y)); [|reflexivity].
  rewrite IH. apply perm_swap.
Qed.

Lemma sorted_reverse_perm l : Permutation (Binary64.sorted_reverse key l) l.
Proof.
  induction l as [|x r IH]; simpl; [reflexivity|].
  rewrite insert_desc_perm. now constructor.
Qed.

Lemma no_nan_perm l l' :
  Permutation l l' -> Binary64.no_nan key l -> Binary64.no_nan key l'.
Proof.
  unfold Binary64.no_nan. intros Hp H. apply Forall_forall. intros x Hx.
  rewrite Forall_forall in H. apply H.
  now apply (Permutation_in _ (Permutation_sym Hp)).
Qed.

Lemma insert_desc_sorted x l :
  PrimFloat.is_nan (key x) = false -> Binary64.no_nan key l ->
  Binary64.descending key l -> Binary64.descending key (Binary64.insert_desc key x l).
Proof.
  unfold Binary64.descending, Binary64.no_nan. intros Hx Hn H.
  induction H as [|y r Hr IH Hy]; simpl.
  - repeat constructor.
  - inversion Hn as [|? ? Hny Hnr]; subst.
    destruct (PrimFloat.ltb (key x) (key y)) eqn:E.
    + constructor; [now apply IH|].
      apply Forall_forall. intros z Hz.
      apply (Permutation_in _ (insert_desc_perm x r)) in Hz as [<-|Hz].
      * now apply ltb_leb.
      * rewrite Forall_forall in Hy. now apply Hy.
    + rewrite ltb_negb_leb in E by assumption. apply negb_false_iff in E.
      constructor; [now constructor|].
      constructor; [assumption|].
      eapply Forall_impl; [|exact Hy]. simpl. intros z Hz.
      now apply leb_trans with (key y).
Qed.

Lemma sorted_reverse_sorted l :
  Binary64.no_nan key l -> Binary64.descending key (Binary64.sorted_reverse key l).
Proof.
  intro Hn. induction Hn as [|x r Hx Hr IH]; simpl; [constructor|].
  apply insert_desc_sorted; [assumption | | assumption].
  apply (no_nan_perm r); [apply Permutation_sym, sorted_reverse_perm | exact Hr].
Qed.

Lemma descending_head x l y :
  PrimFloat.is_nan (key x) = false ->
  Binary64.descending key (x :: l) -> In y (x :: l) ->
  PrimFloat.leb (key y) (key x) = true.
Proof.
  intros Hx H [<-|Hy]; [now apply leb_refl|].
  inversion H as [|? ? _ Hall]; subst. rewrite Forall_forall in Hall. now apply Hall.
Qed.

Lemma descending_last l x y :
  PrimFloat.is_nan (key x) = false ->
  Binary64.descending key (l ++ [x]) -> In y (l ++ [x]) ->
  PrimFloat.leb (key x) (key y) = true.
Proof.
  unfold Binary64.descending. intro Hx. induction l as [|a r IH]; simpl; intros H Hy.
  - destruct Hy as [<-|[]]. now apply leb_refl.
  - inversion H as [|? ? Hr Hall]; subst. destruct Hy as [<-|Hy].
    + rewrite Forall_forall in Hall. apply Hall. apply in_or_app. right. now left.
    + now apply IH.
Qed.

Lemma descending_all_below a l :
  Binary64.no_nan key (a :: l) -> Binary64.descending key (a :: l) ->
  PrimFloat.leb 0%float (key a) = false ->
  filter (fun x => PrimFloat.leb 0%float (key x)) l = [] /\
  filter (fun x => PrimFloat.ltb (key x) 0%float) l = l.
Proof.
  intros Hn H Ha. inversion H as [|? ? _ Hall]; subst. clear H.
  inversion Hn as [|? ? _ Hnl]; subst. clear Hn.
  induction Hall as [|y r Hy Hr IH]; simpl; [auto|].
  inversion Hnl as [|? ? Hny Hnr]; subst.
  assert (E1 : PrimFloat.leb 0%float (key y) = false).
  { destruct (PrimFloat.leb 0%float (key y)) eqn:E; [|reflexivity].
    rewrite (leb_trans _ _ _ E Hy) in Ha. discriminate. }
  rewrite ltb_negb_leb by (assumption || reflexivity).
  rewrite E1. simpl. destruct (IH Hnr) as [-> ->]. auto.
Qed.

Lemma descending_split l :
  Binary64.no_nan key l -> Binary64.descending key l ->
  filter (fun x => PrimFloat.leb 0%float (key x)) l
    ++ filter (fun x => PrimFloat.ltb (key x) 0%float) l = l.
Proof.
  intros Hn Hs. induction Hs as [|a r Hr IH Ha]; simpl; [reflexivity|].
  inversion Hn as [|? ? Hna Hnr]; subst.
  rewrite (ltb_negb_leb (key a) 0%float) by (assumption || reflexivity).
  destruct (PrimFloat.leb 0%float (key a)) eqn:E; simpl.
  - now rewrite IH.
  - destruct (descending_all_below a r) as [-> ->];
      [assumption | now constructor | assumption | reflexivity].
Qed.

End Ranking.

(** X9.  With a mapping that is not empty and holds no NaN [pct_change],
    [main] finds a best and a worst stock: both are entries of the mapping,
    no entry has a higher [pct_change] than the best or a lower one than the
    worst, and the ranking lists every entry exactly once, in descending
    order. *)
Theorem best_and_worst_are_extremes (performance_data : dict Binary64.PerformanceRecord) :
  performance_data <> [] ->
  Binary64.no_nan (fun x => Binary64.pct_change (snd x)) performance_data ->
  exists best worst,
    Binary64.best_and_worst performance_data = Some (best, worst) /\
    In best performance_data /\ In worst performance_data /\
    (forall x, In x performance_data ->
       PrimFloat.leb (Binary64.pct_change (snd worst)) (Binary64.pct_change (snd x)) = true /\
       PrimFloat.leb (Binary64.pct_change (snd x)) (Binary64.pct_change (snd best)) = true) /\
    Permutation (Binary64.sorted_performance performance_data) performance_data /\
    Binary64.descending (fun x => Binary64.pct_change (snd x))
      (Binary64.sorted_performance performance_data).
Proof.
  intros Hne Hnan.
  pose proof (sorted_reverse_perm (fun x => Binary64.pct_change (snd x)) performance_data)
    as Hperm.
  pose proof (sorted_reverse_sorted (fun x => Binary64.pct_change (snd x))
                performance_data Hnan) as Hsort.
  fold (Binary64.sorted_performance performance_data) in Hperm, Hsort.
  assert (Hnan' : forall x, In x (Binary64.sorted_performance performance_data) ->
                            PrimFloat.is_nan (Binary64.pct_change (snd x)) = false).
  { intros x Hx. unfold Binary64.no_nan in Hnan. rewrite Forall_forall in Hnan.
    apply Hnan. now apply (Permutation_in _ Hperm). }
  unfold Binary64.best_and_worst.
  destruct performance_data as [|x0 rest] eqn:Epd; [congruence|]. rewrite <- Epd in *.
  destruct (Binary64.sorted_performance performance_data) as [|best tl] eqn:Es.
  { apply Permutation_nil in Hperm. congruence. }
  destruct (rev (best :: tl)) as [|worst front] eqn:Er.
  { apply (f_equal (@List.length _)) in Er. rewrite length_rev in Er. discriminate. }
  assert (Hlast : best :: tl = rev front ++ [worst]).
  { rewrite <- (rev_involutive (best :: tl)), Er. reflexivity. }
  assert (Hinw : In worst (best :: tl)).
  { rewrite Hlast. apply in_or_app. right. now left. }
  exists best, worst. split; [reflexivity|].
  split; [apply (Permutation_in _ Hperm); now left|].
  split; [now apply (Permutation_in _ Hperm)|].
  split; [|split; assumption].
  intros x Hx. apply (Permutation_in _ (Permutation_sym Hperm)) in Hx. split.
  - rewrite Hlast in Hsort, Hx.
    apply (descending_last (fun x => Binary64.pct_change (snd x)) _ _ _
             (Hnan' _ Hinw) Hsort Hx).
  - apply (descending_head (fun x => Binary64.pct_change (snd x)) _ _ _
             (Hnan' _ (or_introl eq_refl)) Hsort Hx).
Qed.

(** The mapping computed for [three_stocks] passes the hypotheses of
    [best_and_worst_are_extremes]: of its three records the best is 0388 and
    the worst is 0700. *)
Lemma best_and_worst_are_extremes_witness :
  exists perf best worst,
    Binary64.calculate_performance_from_entries Binary64.three_stocks Binary64.three_prices
      = Ok perf /\
    List.length perf = 3%nat /\
    Binary64.best_and_worst perf = Some (best, worst) /\
    fst best = "0388"%string /\ fst worst = "0700"%string /\
    In best perf /\ In worst perf.
Proof.
  pose (perf := match Binary64.calculate_performance_from_entries
                        Binary64.three_stocks Binary64.three_prices
                with Ok p => p | Raise _ => [] end).
  assert (Hne : perf <> []) by (intro E; vm_compute in E; discriminate E).
  assert (Hnan : Binary64.no_nan (fun x => Binary64.pct_change (snd x)) perf)
    by (vm_compute; repeat constructor).
  destruct (best_and_worst_are_extremes perf Hne Hnan) as (b & w & Hbw & Hb & Hw & _).
  assert (Hbw' : exists b' w', Binary64.best_and_worst perf = Some (b', w') /\
                               fst b' = "0388"%string /\ fst w' = "0700"%string).
  { vm_compute. eexists _, _. split; [reflexivity|]. split; reflexivity. }
  destruct Hbw' as (b' & w' & Hbw' & Hfb & Hfw).
  rewrite Hbw in Hbw'. injection Hbw' as <- <-.
  exists perf, b, w. split; [reflexivity|]. split; [reflexivity|].
  repeat split; assumption.
Defined.

(** X10.  In the bulletproof summary, when no [current_pct] is NaN, the
    winners followed by the losers are the whole ranking: every stock is
    listed once, in descending order of [current_pct], every winner has
    [current_pct >= 0] and every loser [current_pct < 0]. *)
Theorem winners_then_losers (performance_data : dict Binary64.SimplePerformance) :
  Binary64.no_nan (fun x => Binary64.current_pct (snd x)) performance_data ->
  Binary64.winners (Binary64.sorted_perf performance_data)
    ++ Binary64.losers (Binary64.sorted_perf performance_data)
    = Binary64.sorted_perf performance_data /\
  Permutation (Binary64.winners (Binary64.sorted_perf performance_data)
                 ++ Binary64.losers (Binary64.sorted_perf performance_data))
    performance_data /\
  Binary64.descending (fun x => Binary64.current_pct (snd x))
    (Binary64.sorted_perf performance_data) /\
  Forall (fun x => PrimFloat.leb 0%float (Binary64.current_pct (snd x)) = true)
    (Binary64.winners (Binary64.sorted_perf performance_data)) /\
  Forall (fun x => PrimFloat.ltb (Binary64.current_pct (snd x)) 0%float = true)
    (Binary64.losers (Binary64.sorted_perf performance_data)).
Proof.
  intro Hnan.
  set (key := fun x : string * Binary64.SimplePerformance => Binary64.current_pct (snd x)) in *.
  pose proof (sorted_reverse_perm key performance_data) as Hperm.
  pose proof (sorted_reverse_sorted key performance_data Hnan) as Hsort.
  pose proof (no_nan_perm key _ _ (Permutation_sym Hperm) Hnan) as Hnan'.
  fold (Binary64.sorted_perf performance_data) in Hperm, Hsort, Hnan'.
  assert (Hcat : Binary64.winners (Binary64.sorted_perf performance_data)
                   ++ Binary64.losers (Binary64.sorted_perf performance_data)
                 = Binary64.sorted_perf performance_data).
  { unfold Binary64.winners, Binary64.losers.
    apply (descending_split key); assumption. }
  split; [exact Hcat|]. split; [rewrite Hcat; exact Hperm|].
  split; [exact Hsort|]. split.
  - apply Forall_forall. intros x Hx. now apply filter_In in Hx as [_ Hx].
  - apply Forall_forall. intros x Hx. now apply filter_In in Hx as [_ Hx].
Qed.

(** [four_entries] passes the hypothesis of [winners_then_losers]: 0005 and
    0700 (at 0) are the winners, 0388 and 0823 the losers. *)
Lemma winners_then_losers_witness :
  Binary64.no_nan (fun x => Binary64.current_pct (snd x)) Binary64.four_entries /\
  map fst (Binary64.winners (Binary64.sorted_perf Binary64.four_entries))
    = ["0005"%string; "0700"%string] /\
  map fst (Binary64.losers (Binary64.sorted_perf Binary64.four_entries))
    = ["0388"%string; "0823"%string] /\
  Binary64.winners (Binary64.sorted_perf Binary64.four_entries)
    ++ Binary64.losers (Binary64.sorted_perf Binary64.four_entries)
    = Binary64.sorted_perf Binary64.four_entries.
Proof.
  assert (Hnan : Binary64.no_nan (fun x => Binary64.current_pct (snd x))
                   Binary64.four_entries)
    by (repeat constructor).
  split; [exact Hnan|]. split; [reflexivity|]. split; [reflexivity|].
  exact (proj1 (winners_then_losers Binary64.four_entries Hnan)).
Defined.

(** * The cap over binary64 *)

Lemma is_nan_true x : PrimFloat.is_nan x = true -> Prim2SF x = S754_nan.
Proof.
  unfold PrimFloat.is_nan. rewrite eqb_spec. unfold SFeqb. intro H.
  destruct (Prim2SF x) as [s|s| |s m e] eqn:E; [| |reflexivity|];
    rewrite SFcompare_refl in H by discriminate; discriminate.
Qed.

Lemma ltb_nan_r a x : PrimFloat.is_nan x = true -> PrimFloat.ltb a x = false.
Proof.
  intro H. rewrite ltb_spec, (is_nan_true _ H). unfold SFltb.
  now destruct (Prim2SF a).
Qed.

Lemma ltb_nan_l x a : PrimFloat.is_nan x = true -> PrimFloat.ltb x a = false.
Proof. intro H. rewrite ltb_spec, (is_nan_true _ H). reflexivity. Qed.

Lemma cap_return_nan v : PrimFloat.is_nan v = true -> Binary64.cap_return v = v.
Proof.
  intro H. unfold Binary64.cap_return. now rewrite ltb_nan_r, ltb_nan_l.
Qed.

Lemma cap_return_in_bounds v :
  PrimFloat.is_nan v = false -> Binary64.in_bounds (Binary64.cap_return v) = true.
Proof.
  intro H. unfold Binary64.cap_return.
  destruct (PrimFloat.ltb 1000%float v) eqn:E1; [reflexivity|].
  destruct (PrimFloat.ltb v (-100)%float) eqn:E2; [reflexivity|].
  rewrite ltb_negb_leb in E1, E2 by (assumption || reflexivity).
  apply negb_false_iff in E1, E2. unfold Binary64.in_bounds. now rewrite E1, E2.
Qed.

Lemma cap_return_capped d v : Binary64.capped (d, Binary64.cap_return v).
Proof.
  unfold Binary64.capped. cbn [snd]. destruct (PrimFloat.is_nan v) eqn:E.
  - left. now rewrite cap_return_nan.
  - right. now apply cap_return_in_bounds.
Qed.

Lemma zero_capped d : Binary64.capped (d, 0%float).
Proof. right. reflexivity. Qed.

Lemma price_date_step_capped all_tx s pt s' :
  Binary64.price_date_step all_tx s pt = Ok s' ->
  Forall Binary64.capped s -> Forall Binary64.capped s'.
Proof.
  destruct pt as [d price]. unfold Binary64.price_date_step. intros H Hs.
  destruct (Binary64.replay (Binary64.transactions_up_to_date all_tx d)
              Binary64.initial_position) as [[cost u]|e]; cbn [bind] in H; [|discriminate].
  destruct (PrimFloat.ltb 0%float u).
  - destruct (Binary64.pydiv SiteCurrentAvgCost cost u) as [avg|e];
      cbn [bind] in H; [|discriminate].
    destruct (Binary64.pydiv SiteCurrentReturn (PrimFloat.sub price avg) avg) as [ratio|e];
      cbn [bind] in H; [|discriminate].
    inversion H; subst s'. apply Forall_app. split; [assumption|].
    constructor; [apply cap_return_capped | constructor].
  - destruct (0 <? List.length s)%nat; inversion H; subst s'; [|assumption].
    apply Forall_app. split; [assumption|].
    constructor; [apply zero_capped | constructor].
Qed.

Lemma price_date_loop_capped all_tx entry_prices : forall s s',
  Binary64.price_date_loop all_tx s entry_prices = Ok s' ->
  Forall Binary64.capped s -> Forall Binary64.capped s'.
Proof.
  induction entry_prices as [|pt r IH]; intros s s' H Hs; cbn [Binary64.price_date_loop] in H.
  - inversion H; subst; assumption.
  - destruct (Binary64.price_date_step all_tx s pt) as [s1|e] eqn:E1;
      cbn [bind] in H; [|discriminate].
    eapply IH; eauto. eapply price_date_step_capped; eauto.
Qed.

Lemma set_first_zero_capped s :
  Forall Binary64.capped s -> Forall Binary64.capped (Binary64.set_first_zero s).
Proof.
  destruct s as [|[d v] r]; [auto|]. intro Hs. inversion Hs; subst. simpl.
  constructor; [apply zero_capped | assumption].
Qed.

Lemma process_stock_capped price_data st item st' :
  Binary64.process_stock price_data st item = Ok st' ->
  Binary64.capped_state st -> Binary64.capped_state st'.
Proof.
  destruct item as [stock_code info]. unfold Binary64.process_stock. intros H Hst.
  destruct (dict_get stock_code price_data) as [col|]; [|congruence].
  destruct ((0 <? List.length (Binary64.dropna col))%nat
            && (0 <? List.length (Binary64.all_transactions info))%nat); [|congruence].
  destruct (filter Binary64.is_buy (Binary64.all_transactions info)) as [|first_buy others];
    [congruence|].
  match type of H with
  | (if ?b then _ else _) = _ => destruct b
  end; [|congruence].
  destruct (Binary64.price_date_loop (Binary64.all_transactions info) []
              (Binary64.entry_prices_of (Binary64.Date first_buy) (Binary64.dropna col)))
    as [ps|e] eqn:Eloop; cbn [bind] in H; [|discriminate].
  destruct (Binary64.replay (Binary64.sort_values (Binary64.all_transactions info))
              Binary64.initial_position) as [[rc ru]|e]; cbn [bind] in H; [|discriminate].
  match type of H with
  | bind ?m _ = _ => destruct m as [wac|e]
  end; cbn [bind] in H; [|discriminate].
  destruct (Binary64.iloc_last (Binary64.dropna col)) as [cur|]; [|congruence].
  match type of H with
  | bind ?m _ = _ => destruct m as [pct|e]
  end; cbn [bind] in H; [|discriminate].
  match type of H with
  | bind (Binary64.read_pct_changes ?v) _ = _ => destruct v as [hist|] eqn:Evar
  end; cbn [bind Binary64.read_pct_changes] in H; [|discriminate].
  inversion H; subst st'; clear H. destruct Hst as [Hv Hd].
  assert (Hhist : Forall Binary64.capped hist).
  { destruct (0 <? List.length ps)%nat.
    - inversion Evar; subst hist. apply set_first_zero_capped.
      eapply price_date_loop_capped; [exact Eloop | constructor].
    - now apply Hv. }
  split; cbn [Binary64.pct_changes Binary64.performance_data].
  - intros s Hs. inversion Hs; subst s. exact Hhist.
  - intros k r Hin. apply In_dict_set in Hin as [Heq|Hin].
    + inversion Heq; subst. exact Hhist.
    + eapply Hd; eauto.
Qed.

Lemma stocks_loop_capped price_data items : forall st st',
  Binary64.stocks_loop price_data st items = Ok st' ->
  Binary64.capped_state st -> Binary64.capped_state st'.
Proof.
  induction items as [|item r IH]; intros st st' H Hst; cbn [Binary64.stocks_loop] in H.
  - inversion H; subst; assumption.
  - destruct (Binary64.process_stock price_data st item) as [st1|e] eqn:E1;
      cbn [bind] in H; [|discriminate].
    apply (IH st1 st' H). eapply process_stock_capped; eauto.
Qed.

(** X17.  In binary64 every point of the trajectory of every record that
    the engine returns is a NaN or lies within [[-100, 1000]]: the cap
    brings every return that is not a NaN into that range and leaves a NaN
    as it is, the points added without units and the first point are 0, and
    a trajectory taken over from an earlier stock was built the same way. *)
Theorem trajectory_capped_unless_nan stock_transactions price_data perf code r :
  Binary64.calculate_performance_from_entries stock_transactions price_data = Ok perf ->
  In (code, r) perf ->
  Forall Binary64.capped (Binary64.historical_pct r) /\
  (forall v, PrimFloat.is_nan v = false ->
             Binary64.in_bounds (Binary64.cap_return v) = true) /\
  (forall v, PrimFloat.is_nan v = true -> Binary64.cap_return v = v).
Proof.
  unfold Binary64.calculate_performance_from_entries.
  destruct (Binary64.stocks_loop price_data _ stock_transactions) as [st|e] eqn:E;
    cbn [bind]; [|discriminate].
  intros H Hin. inversion H; subst perf.
  split; [|split; [exact cap_return_in_bounds | exact cap_return_nan]].
  apply stocks_loop_capped in E.
  - destruct E as [_ Hd]. eapply Hd; eauto.
  - split; cbn [Binary64.pct_changes Binary64.performance_data];
      [discriminate | intros ? ? []].
Qed.

(** The record of 0388 for [three_stocks] passes the hypotheses of
    [trajectory_capped_unless_nan]; its trajectory is 0, 20. *)
Lemma trajectory_capped_unless_nan_witness :
  exists perf r,
    Binary64.calculate_performance_from_entries Binary64.three_stocks Binary64.three_prices
      = Ok perf /\
    In ("0388"%string, r) perf /\
    Binary64.historical_pct r = [(1%Z, 0%float); (2%Z, 20%float)] /\
    Forall Binary64.capped (Binary64.historical_pct r).
Proof.
  pose (perf := match Binary64.calculate_performance_from_entries
                        Binary64.three_stocks Binary64.three_prices
                with Ok p => p | Raise _ => [] end).
  assert (Hrun : Binary64.calculate_performance_from_entries
                   Binary64.three_stocks Binary64.three_prices = Ok perf) by reflexivity.
  assert (Hin : exists r, In ("0388"%string, r) perf /\
                          Binary64.historical_pct r = [(1%Z, 0%float); (2%Z, 20%float)]).
  { vm_compute. eexists. split; [left; reflexivity | reflexivity]. }
  destruct Hin as (r0 & Hin & Hh).
  exists perf, r0. split; [exact Hrun|]. split; [exact Hin|]. split; [exact Hh|].
  exact (proj1 (trajectory_capped_unless_nan _ _ _ _ _ Hrun Hin)).
Defined.
